(** * The golang runtime delegate of firebase-tools

  A shallow embedding of [src/deploy/functions/runtimes/golang/index.ts]:
  [tryCreateDelegate] and the [Delegate] methods [build], [serve] and
  [discoverSpec].  Asynchronous code is written in a small state and
  exception monad; every call that leaves the file (file system, child
  processes, HTTP, the discovery helpers) is answered by a [Host] record
  and leaves an [Event] in the trace of the [World]. *)

From Stdlib Require Import String List ZArith Lia Bool.
From stdpp Require Import base gmap strings list pretty.

Set Warnings "-register-all".

Open Scope Z_scope.

(** ** JavaScript values used by the delegate *)

Module Js.

(** Values that are thrown: [new Error(msg)] (also the errors raised by
    node's libraries, whose [message] carries the code, as in
    "EEXIST: file already exists"), [TypeError], and the tool's own
    [FirebaseError(message, { children })]. *)
Inductive JsError : Type :=
| Error (msg : string)
| TypeError (msg : string)
| FirebaseError (msg : string) (children : list JsError).

Definition message (e : JsError) : string :=
  match e with
  | Error m => m
  | TypeError m => m
  | FirebaseError m _ => m
  end.

Definition children (e : JsError) : list JsError :=
  match e with
  | FirebaseError _ c => c
  | _ => []
  end.

(** How a call, or an awaited promise, ends: it returns (resolves), it
    throws (rejects), or the awaited promise never settles. *)
Inductive Outcome (A : Type) : Type :=
| Returns (a : A)
| Throws (e : JsError)
| Pending.
Arguments Returns {A} a.
Arguments Throws {A} e.
Arguments Pending {A}.

(** [!v] is false exactly for a string that is present and not empty. *)
Definition truthy (v : option string) : bool :=
  match v with
  | Some s => negb (String.eqb s "")
  | None => false
  end.

(** [/needle/.exec(hay)] for a literal pattern: does [hay] contain it. *)
Fixpoint includes (needle hay : string) : bool :=
  String.prefix needle hay ||
  match hay with
  | EmptyString => false
  | String _ rest => includes needle rest
  end.

(** [xs.join(sep)] *)
Fixpoint Array_join (sep : string) (xs : list string) : string :=
  match xs with
  | [] => ""
  | [x] => x
  | x :: rest => x +:+ sep +:+ Array_join sep rest
  end.

(** [n.toString()] for an integral number. *)
Definition Number_toString (n : Z) : string := pretty n.

(** An object literal whose properties may hold [undefined]. *)
Abbreviation Obj := (gmap string (option string)).

(** [{ ...obj, ...src }]: the properties spread later win. *)
Definition spread (obj src : Obj) : Obj := src ∪ obj.

(** [{ ...obj, key: v }] *)
Definition prop (obj : Obj) (key : string) (v : option string) : Obj :=
  <[key := v]> obj.

(** A [Record<string, string>] seen as an object. *)
Definition of_record (r : gmap string string) : Obj := Some <$> r.

End Js.
Export Js.

(** ** Events, the world, and the monad of effects *)

Module Effects.

Definition Runtime := string.

(** What the [runtime] of a delegate holds when the program runs: the
    identifier of a runtime, or, when it was read from a table under a
    name that every object inherits from [Object.prototype], that
    inherited property (a function, or the prototype itself). *)
Inductive RuntimeValue : Type :=
| Named (id : string)
| Inherited (property : string).

Coercion Named : string >-> RuntimeValue.

Inductive Event : Type :=
| EvLogDebug (msg : string)
| EvReadFile (path : string)
| EvMkdir (path : string)
| EvSpawnSync (cmd : string) (args : list string) (cwd : string)
| EvWriteFile (path data : string)
| EvGetPort
| EvSpawn (cmd : string) (args : list string) (env : Obj) (cwd : string)
| EvDetectFromYaml (dir project : string) (runtime : RuntimeValue)
| EvDetectFromPort (port : Z) (project : string) (runtime : RuntimeValue)
| EvOnce (event : string)
| EvFetch (url : string)
| EvSetTimeout (ms : Z)
| EvKill (signal : string)
| EvChildExit
| EvChildError (e : JsError).

(** [trace]: what was done so far, oldest first; [ports_requested]: how
    often [portfinder.getPort] was called; [child_killed]: the [killed]
    flag of the child process started by [serve]. *)
Record World : Type := mkWorld {
  trace : list Event;
  ports_requested : nat;
  child_killed : bool
}.

Definition start : World :=
  {| trace := []; ports_requested := 0; child_killed := false |}.

Definition log (ev : Event) (w : World) : World :=
  {| trace := trace w ++ [ev];
     ports_requested := ports_requested w;
     child_killed := child_killed w |}.

Definition M (A : Type) : Type := World -> Outcome A * World.

Definition ret {A} (a : A) : M A := fun w => (Returns a, w).

Definition throw {A} (e : JsError) : M A := fun w => (Throws e, w).

Definition bind {A B} (m : M A) (k : A -> M B) : M B :=
  fun w =>
    match m w with
    | (Returns a, w') => k a w'
    | (Throws e, w') => (Throws e, w')
    | (Pending, w') => (Pending, w')
    end.

(** [try { body } catch (err) { handler }] *)
Definition try_catch {A} (body : M A) (handler : JsError -> M A) : M A :=
  fun w =>
    match body w with
    | (Throws e, w') => handler e w'
    | r => r
    end.

(** [try { body } finally { fin }]: the [finally] block runs after the
    body returned or threw; when it completes normally the body's
    outcome stands, when it throws its error replaces that outcome. *)
Definition try_finally {A} (body : M A) (fin : M unit) : M A :=
  fun w =>
    match body w with
    | (Pending, w') => (Pending, w')
    | (r, w') =>
        match fin w' with
        | (Returns _, w'') => (r, w'')
        | (Throws e, w'') => (Throws e, w'')
        | (Pending, w'') => (Pending, w'')
        end
    end.

(** An effect: leave [ev] in the trace and end as [r] says. *)
Definition perform {A} (ev : Event) (r : Outcome A) : M A :=
  fun w => (r, log ev w).

Definition emit (ev : Event) : M unit := perform ev (Returns tt).

(** A synchronous call that leaves no trace. *)
Definition call {A} (r : Outcome A) : M A := fun w => (r, w).

Definition run {A} (m : M A) : Outcome A * World := m start.

(** The world in which exactly [evs] happened, no port was requested and no
    child was signalled. *)
Definition after (evs : list Event) : World :=
  {| trace := evs; ports_requested := 0; child_killed := false |}.

End Effects.
Export Effects.

Declare Scope js_scope.
Delimit Scope js_scope with js.
Notation "x <- m ;; k" := (bind m (fun x => k))
  (at level 100, m at next level, right associativity) : js_scope.
Notation "m ;; k" := (bind m (fun _ => k))
  (at level 100, right associativity) : js_scope.
Open Scope js_scope.

(** ** What the delegate talks to *)

Module Host.

(** [modules.Module], as far as this file reads it: the declared module
    name and the go directive's version, a string that may be missing. *)
Record modules_Module : Type := {
  module : string;
  version : option string
}.

(** [backend.Backend]: the deployable units of the source, which this file
    never inspects, and the [environmentVariables] field it assigns. *)
Record Backend : Type := {
  deployables : list string;
  environmentVariables : gmap string string
}.

(** [spawn.sync(...)]: the command ran, with its exit [status] ([null]
    when a signal ended it) and the two captured buffers; or it could not
    be started, and the result carries the [error] with a [null] status
    and [null] in place of both buffers. *)
Inductive SpawnSyncReturns : Type :=
| Ran (status : option Z) (stdout stderr : string)
| NotStarted (error : JsError).

Definition status (r : SpawnSyncReturns) : option Z :=
  match r with
  | Ran s _ _ => s
  | NotStarted _ => None
  end.

(** The text of a captured buffer; a command that did not start has
    none, and [build] does not get to read the text then. *)
Definition stdout (r : SpawnSyncReturns) : string :=
  match r with
  | Ran _ out _ => out
  | NotStarted _ => ""
  end.

Definition stderr (r : SpawnSyncReturns) : string :=
  match r with
  | Ran _ _ err => err
  | NotStarted _ => ""
  end.

(** What becomes of the child started by [serve] once it was asked to
    quit: it exits on its own after [ms] milliseconds, it keeps running
    until a signal ends it, or it reports an ["error"]; or it had exited
    before the stop handle was invoked, so that its ["exit"] is over when
    the handle starts to listen. *)
Inductive ChildFate : Type :=
| ExitsAfter (ms : Z)
| KeepsRunning
| FailsWith (e : JsError)
| ExitedBefore.

(** The answers of everything outside the file.  [portfinder_getPort n]
    answers the call number [n]; the other functions answer by argument. *)
Record Host : Type := {
  process_env : gmap string string;
  path_join : list string -> string;
  fs_readFile : string -> Outcome string;
  modules_parseModule : string -> Outcome modules_Module;
  fs_mkdir : string -> Outcome unit;
  spawn_sync : string -> list string -> string -> SpawnSyncReturns;
  fs_writeFile : string -> string -> Outcome unit;
  portfinder_getPort : nat -> Outcome Z;
  discovery_detectFromYaml :
    string -> string -> RuntimeValue -> Outcome (option Backend);
  discovery_detectFromPort :
    Z -> string -> RuntimeValue -> Outcome (option Backend);
  fetch : string -> Outcome unit;
  child_fate : ChildFate
}.

(** [options], by what the file asks of it:
    [options.config.get("functions.source")],
    [options.config.get("functions.runtime")], [options.config.path] and
    [getProjectId(options)]. *)
Record Options : Type := {
  config_functions_source : string;
  config_functions_runtime : option Runtime;
  config_path : string -> string;
  getProjectId : string
}.

End Host.
Export Host.

(** ** golang/index.ts *)

Module Golang.

(** An object used as a table: keys in insertion order. *)
Definition VERSION_TO_RUNTIME : list (string * Runtime) :=
  [("1.13", "go113")].

Definition Object_keys {V} (table : list (string * V)) : list string :=
  map fst table.

(** The table's own entry under [key], if it has one. *)
Fixpoint get {V} (table : list (string * V)) (key : string) : option V :=
  match table with
  | [] => None
  | (k, v) :: rest => if String.eqb k key then Some v else get rest key
  end.

(** The names of the properties that an object literal inherits from
    [Object.prototype]. *)
Definition Object_prototype : list string :=
  ["constructor"; "__defineGetter__"; "__defineSetter__"; "hasOwnProperty";
   "__lookupGetter__"; "__lookupSetter__"; "isPrototypeOf";
   "propertyIsEnumerable"; "toString"; "valueOf"; "__proto__";
   "toLocaleString"].

Definition inherited (key : string) : bool :=
  existsb (String.eqb key) Object_prototype.

(** [table[key]]: the table's own entry, else the property inherited
    under that name, else [undefined]. *)
Definition lookup (table : list (string * Runtime)) (key : string)
    : option RuntimeValue :=
  match get table key with
  | Some r => Some (Named r)
  | None => if inherited key then Some (Inherited key) else None
  end.

(** [!value] is false for a runtime identifier that is not empty and for
    every inherited property. *)
Definition holds (value : option RuntimeValue) : bool :=
  match value with
  | Some (Named r) => truthy (Some r)
  | Some (Inherited _) => true
  | None => false
  end.

Definition ADMIN_SDK : string := "firebase.google.com/go/v4".
Definition FUNCTIONS_SDK : string := "github.com/inlined/go-functions".
Definition FUNCTIONS_CODEGEN : string := FUNCTIONS_SDK +:+ "/support/codegen".
Definition FUNCTIONS_EMULATOR : string := FUNCTIONS_SDK +:+ "/support/emulator".

Record Delegate : Type := {
  name : string;
  projectId : string;
  sourceDir : string;
  runtime : RuntimeValue;
  module_ : modules_Module
}.

Definition new_Delegate (projectId sourceDir : string)
    (runtime : RuntimeValue) (m : modules_Module) : Delegate :=
  {| name := "golang"; projectId := projectId; sourceDir := sourceDir;
     runtime := runtime; module_ := m |}.

Definition unsupported_version_message (v : string) : string :=
  "go.mod specifies Golang version " +:+ v +:+
  " which is unsupported by Google Cloud Functions. Valid values are " +:+
  Array_join ", " (Object_keys VERSION_TO_RUNTIME).

Section Delegate.

Variable host : Host.

Definition logger_debug (msg : string) : M unit := emit (EvLogDebug msg).

Definition readFile (path : string) : M string :=
  perform (EvReadFile path) (fs_readFile host path).

Definition parseModule (text : string) : M modules_Module :=
  call (modules_parseModule host text).

(** The [try] block of [tryCreateDelegate]: [Some] module when the file was
    read and parsed, [None] for the bare [return] of the [catch] block. *)
Definition read_go_mod (goModPath : string) : M (option modules_Module) :=
  try_catch
    (modBuffer <- readFile goModPath;;
     m <- parseModule modBuffer;;
     ret (Some m))
    (fun _ =>
       logger_debug
         "Customer code is not Golang code (or they aren't using modules)";;
       ret None).

(** [VERSION_TO_RUNTIME[module.version]], read after [module.version]
    was found truthy. *)
Definition detect_runtime (m : modules_Module) : M RuntimeValue :=
  if negb (truthy (version m)) then
    throw (FirebaseError "Could not detect Golang version from go.mod" [])
  else
    let v := default "" (version m) in
    match lookup VERSION_TO_RUNTIME v with
    | Some value =>
        if negb (holds (Some value)) then
          throw (FirebaseError (unsupported_version_message v) [])
        else ret value
    | None => throw (FirebaseError (unsupported_version_message v) [])
    end.

Definition tryCreateDelegate (options : Options) : M (option Delegate) :=
  let sourceDirName := config_functions_source options in
  let sourceDir := config_path options sourceDirName in
  let goModPath := path_join host [sourceDir; "go.mod"] in
  let projectId := getProjectId options in
  parsed <- read_go_mod goModPath;;
  match parsed with
  | None => ret None
  | Some m =>
      let runtime := config_functions_runtime options in
      runtime <- (if negb (truthy runtime) then detect_runtime m
                  else ret (Named (default "" runtime)));;
      ret (Some (new_Delegate projectId sourceDir runtime m))
  end.

(** *** [Delegate.validate], [Delegate.watch] *)

Definition validate (d : Delegate) : M unit := ret tt.

Definition watch (d : Delegate) : M (M unit) := ret (ret tt).

(** *** [Delegate.build] *)

Definition mkdir (path : string) : M unit :=
  perform (EvMkdir path) (fs_mkdir host path).

Definition writeFile (path data : string) : M unit :=
  perform (EvWriteFile path data) (fs_writeFile host path data).

Definition spawn_sync_in (cmd : string) (args : list string) (cwd : string)
    : M SpawnSyncReturns :=
  perform (EvSpawnSync cmd args cwd) (Returns (spawn_sync host cmd args cwd)).

(** [getDeps.status != 0], where [status] may be [null]. *)
Definition status_not_zero (s : option Z) : bool :=
  match s with
  | Some n => negb (n =? 0)
  | None => true
  end.

Definition build (d : Delegate) : M unit :=
  try_catch
    (mkdir (path_join host [sourceDir d; "autogen"]))
    (fun err =>
       if negb (includes "EEXIST" (message err)) then
         throw (FirebaseError "Failed to create codegen directory" [err])
       else ret tt);;
  getDeps <- spawn_sync_in "go" ["run"; FUNCTIONS_CODEGEN; module (module_ d)]
               (sourceDir d);;
  if status_not_zero (status getDeps) then
    match getDeps with
    | Ran _ _ err =>
        throw (FirebaseError "Failed to run codegen" [Error err])
    | NotStarted _ =>
        throw (TypeError "Cannot read properties of null (reading 'toString')")
    end
  else
    writeFile (path_join host [sourceDir d; "autogen"; "main.go"])
      (stdout getDeps).

(** *** [Delegate.serve] *)

(** The [env] option handed to [spawn]. *)
Definition serve_env (port adminPort : Z) (envs : gmap string string) : Obj :=
  let env := spread (of_record envs) (of_record (process_env host)) in
  let env := prop env "GOPATH" (process_env host !! "GOPATH") in
  let env := prop env "PORT" (Some (Number_toString port)) in
  let env := prop env "ADMIN_PORT" (Some (Number_toString adminPort)) in
  prop env "PATH" (process_env host !! "PATH").

(** The environment the child receives: node passes on the properties of
    [env] that are not [undefined]. *)
Definition child_environment (env : Obj) : gmap string string :=
  omap id env.

Definition GRACE_MS : Z := 10000.

(** The timer's callback: [if (!childProcess.killed) childProcess.kill("SIGKILL")].
    A child that receives the signal exits, which resolves [p]; when the
    flag was already up nothing is sent and [p] stays pending. *)
Definition timeout_fires : M unit :=
  fun w =>
    if negb (child_killed w) then
      (Returns tt,
       log EvChildExit
         (log (EvKill "SIGKILL")
            {| trace := trace w; ports_requested := ports_requested w;
               child_killed := true |}))
    else (Pending, w).

(** [return p]: the listeners registered with [once] settle [p] on the
    child's ["exit"] or ["error"], whichever the child's fate and the timer
    bring first.  The timer is never cleared; what its callback does after
    [p] has settled is no longer awaited by anyone and is left out.  For a
    child that had exited before, no listener is ever called and the
    timer's [kill] finds no process to signal: [p] stays pending. *)
Definition await_p : M unit :=
  match child_fate host with
  | FailsWith e => perform (EvChildError e) (Throws e)
  | ExitsAfter ms => if ms <? GRACE_MS then emit EvChildExit else timeout_fires
  | KeepsRunning => timeout_fires
  | ExitedBefore => fun w => (Pending, w)
  end.

Definition quit_url (adminPort : Z) : string :=
  "http://localhost:" +:+ Number_toString adminPort +:+ "/quitquitquit".

(** The stop handle that [serve] resolves to. *)
Definition stop (adminPort : Z) : M unit :=
  emit (EvOnce "exit");;
  emit (EvOnce "error");;
  perform (EvFetch (quit_url adminPort)) (fetch host (quit_url adminPort));;
  emit (EvSetTimeout GRACE_MS);;
  await_p.

(** [serve] starts the child, whose [killed] flag is down, and resolves to
    the stop handle.  The listener it puts on the child's stdout only
    passes the chunks to the debug log as they arrive; it is left out of
    the trace. *)
Definition serve (d : Delegate) (port adminPort : Z)
    (envs : gmap string string) : M (M unit) :=
  fun w =>
    (Returns (stop adminPort),
     log (EvSpawn "go" ["run"; "./autogen"] (serve_env port adminPort envs)
            (sourceDir d))
       {| trace := trace w; ports_requested := ports_requested w;
          child_killed := false |}).

(** *** [Delegate.discoverSpec] *)

Definition getPort : M Z :=
  fun w =>
    (portfinder_getPort host (ports_requested w),
     log EvGetPort
       {| trace := trace w; ports_requested := S (ports_requested w);
          child_killed := child_killed w |}).

Definition detectFromYaml (dir project : string) (rt : RuntimeValue)
    : M (option Backend) :=
  perform (EvDetectFromYaml dir project rt)
    (discovery_detectFromYaml host dir project rt).

Definition detectFromPort (port : Z) (project : string) (rt : RuntimeValue)
    : M (option Backend) :=
  perform (EvDetectFromPort port project rt)
    (discovery_detectFromPort host port project rt).

(** [discovered.environmentVariables = envs; return discovered;] *)
Definition set_environmentVariables (discovered : option Backend)
    (envs : gmap string string) : M Backend :=
  match discovered with
  | Some b =>
      ret {| deployables := deployables b; environmentVariables := envs |}
  | None =>
      throw (TypeError
        "Cannot set properties of undefined (setting 'environmentVariables')")
  end.

Definition discoverSpec (d : Delegate) (configValues : gmap string string)
    (envs : gmap string string) : M Backend :=
  discovered <- detectFromYaml (sourceDir d) (projectId d) (runtime d);;
  discovered <-
    match discovered with
    | Some b => ret (Some b)
    | None =>
        port <- getPort;;
        adminPort <- getPort;;
        kill <- serve d port adminPort envs;;
        try_finally (detectFromPort 8081 (projectId d) (runtime d)) kill
    end;;
  set_environmentVariables discovered envs.

End Delegate.

End Golang.
Export Golang.


(** ** Classifying events *)

Module Observe.

(** The steps that only dynamic discovery takes: a port is requested, a
    child is started, a port is probed. *)
Definition is_dynamic (ev : Event) : bool :=
  match ev with
  | EvGetPort | EvSpawn _ _ _ _ | EvDetectFromPort _ _ _ => true
  | _ => false
  end.

Definition is_probe (ev : Event) : bool :=
  match ev with
  | EvDetectFromPort _ _ _ => true
  | _ => false
  end.

(** [later] continues [earlier] and none of the added steps is a probe. *)
Definition continues_without_probe (earlier later : list Event) : Prop :=
  exists evs,
    later = earlier ++ evs /\ Forall (fun ev => is_probe ev = false) evs.

(** The steps by which the stop handle ends the child. *)
Definition ends_child (ev : Event) : bool :=
  match ev with
  | EvSetTimeout _ | EvKill _ | EvChildExit => true
  | _ => false
  end.

(** The autogen directory is in place when [build] goes on to the codegen
    command: [mkdir] made it, or failed because it exists. *)
Definition autogen_ready (host : Host) (d : Delegate) : Prop :=
  fs_mkdir host (path_join host [sourceDir d; "autogen"]) = Returns tt \/
  exists err,
    fs_mkdir host (path_join host [sourceDir d; "autogen"]) = Throws err /\
    includes "EEXIST" (message err) = true.

(** The world of a dynamic discovery at the moment the probe has been
    sent: ports [p] and [a] were handed out and the child was started. *)
Definition probed (host : Host) (d : Delegate) (p a : Z)
    (envs : gmap string string) : World :=
  {| trace :=
       [EvDetectFromYaml (sourceDir d) (projectId d) (runtime d);
        EvGetPort; EvGetPort;
        EvSpawn "go" ["run"; "./autogen"] (serve_env host p a envs)
          (sourceDir d);
        EvDetectFromPort 8081 (projectId d) (runtime d)];
     ports_requested := 2;
     child_killed := false |}.

(** What [discoverSpec] ends with once the probe ended as [probe] says and
    the stop handle returned. *)
Definition discovered_outcome (probe : Outcome (option Backend))
    (envs : gmap string string) : Outcome Backend :=
  match probe with
  | Returns (Some b) =>
      Returns {| deployables := deployables b; environmentVariables := envs |}
  | Returns None =>
      Throws (TypeError
        "Cannot set properties of undefined (setting 'environmentVariables')")
  | Throws e => Throws e
  | Pending => Pending
  end.

End Observe.
Export Observe.

(** ** The environment as the specification words it *)

Module Spec.

(** "layering, in increasing precedence: the inherited process environment,
    then user-supplied envs, then two injected variables for the primary
    and admin ports, then an explicit re-assertion of the inherited PATH
    and GOPATH". *)
Definition layered_env (host : Host) (port adminPort : Z)
    (envs : gmap string string) : Obj :=
  let env := spread (of_record (process_env host)) (of_record envs) in
  let env := prop env "PORT" (Some (Number_toString port)) in
  let env := prop env "ADMIN_PORT" (Some (Number_toString adminPort)) in
  let env := prop env "PATH" (process_env host !! "PATH") in
  prop env "GOPATH" (process_env host !! "GOPATH").

End Spec.

(** ** Concrete hosts *)

Module Scenario.

Definition fn_module (v : option string) : modules_Module :=
  {| module := "example.com/fn"; version := v |}.

Definition hello_backend : Backend :=
  {| deployables := ["hello"];
     environmentVariables := {[ "STALE" := "reported by the child" ]} |}.

Definition inherited : gmap string string :=
  {[ "PATH" := "/usr/local/go/bin:/usr/bin";
     "GOPATH" := "/home/dev/go";
     "REGION" := "inherited" ]}.

Definition user_envs : gmap string string :=
  {[ "REGION" := "user"; "API_KEY" := "k" ]}.

Definition codegen_ok : SpawnSyncReturns :=
  Ran (Some 0) "package main" "".

Definition codegen_failed : SpawnSyncReturns :=
  Ran (Some 1) "" "module not found".

(** A host in which the listed answers vary and everything else succeeds:
    the two ports handed out are 5000 and 5001. *)
Definition host_with
    (read : Outcome string) (parsed : Outcome modules_Module)
    (made : Outcome unit) (codegen : SpawnSyncReturns)
    (yaml probe : Outcome (option Backend))
    (quit : Outcome unit) (fate : ChildFate) : Host :=
  {| process_env := inherited;
     path_join := Array_join "/";
     fs_readFile := fun _ => read;
     modules_parseModule := fun _ => parsed;
     fs_mkdir := fun _ => made;
     spawn_sync := fun _ _ _ => codegen;
     fs_writeFile := fun _ _ => Returns tt;
     portfinder_getPort := fun n => Returns (5000 + Z.of_nat n);
     discovery_detectFromYaml := fun _ _ _ => yaml;
     discovery_detectFromPort := fun _ _ _ => probe;
     fetch := fun _ => quit;
     child_fate := fate |}.

(** go.mod is read and declares version [v]. *)
Definition host_go_mod (v : option string) : Host :=
  host_with (Returns "module example.com/fn") (Returns (fn_module v))
    (Returns tt) codegen_ok (Returns None) (Returns (Some hello_backend))
    (Returns tt) (ExitsAfter 50).

(** There is no go.mod. *)
Definition host_no_go_mod : Host :=
  host_with (Throws (Error "ENOENT: no such file or directory, open 'go.mod'"))
    (Returns (fn_module (Some "1.13")))
    (Returns tt) codegen_ok (Returns None) (Returns (Some hello_backend))
    (Returns tt) (ExitsAfter 50).

(** go.mod is there and does not parse. *)
Definition host_bad_go_mod : Host :=
  host_with (Returns "not a module file") (Throws (Error "Module has no name"))
    (Returns tt) codegen_ok (Returns None) (Returns (Some hello_backend))
    (Returns tt) (ExitsAfter 50).

(** The codegen command ends as [codegen] says; the autogen directory is
    already there. *)
Definition host_codegen (codegen : SpawnSyncReturns) : Host :=
  host_with (Returns "module example.com/fn")
    (Returns (fn_module (Some "1.13")))
    (Throws (Error "EEXIST: file already exists, mkdir 'autogen'"))
    codegen (Returns None) (Returns (Some hello_backend))
    (Returns tt) (ExitsAfter 50).

(** Discovery: what the yaml file and the probe answer, how the quit
    request ends and what the child does. *)
Definition host_discovery (yaml probe : Outcome (option Backend))
    (quit : Outcome unit) (fate : ChildFate) : Host :=
  host_with (Returns "module example.com/fn")
    (Returns (fn_module (Some "1.13")))
    (Returns tt) codegen_ok yaml probe quit fate.

(** No yaml file; the probe answers with a backend; the child quits when
    asked. *)
Definition host_dynamic : Host :=
  host_discovery (Returns None) (Returns (Some hello_backend))
    (Returns tt) (ExitsAfter 50).

(** A yaml file describes the backend. *)
Definition host_static : Host :=
  host_discovery (Returns (Some hello_backend)) (Throws (Error "not asked"))
    (Returns tt) (ExitsAfter 50).

(** No yaml file; the probe throws; the child quits when asked. *)
Definition host_probe_fails : Host :=
  host_discovery (Returns None) (Throws (Error "probe failed"))
    (Returns tt) (ExitsAfter 50).

(** No yaml file; the probe throws; the quit request returns and the child
    then reports an error. *)
Definition host_probe_fails_child_errors : Host :=
  host_discovery (Returns None) (Throws (Error "probe failed"))
    (Returns tt) (FailsWith (Error "kill EPERM")).

(** No yaml file; the quit request returns and the child keeps running. *)
Definition host_unresponsive : Host :=
  host_discovery (Returns None) (Returns (Some hello_backend))
    (Returns tt) KeepsRunning.

(** No yaml file; the quit request is refused while the child keeps
    running. *)
Definition host_quit_refused : Host :=
  host_discovery (Returns None) (Returns (Some hello_backend))
    (Throws
       (Error "request to http://localhost:5001/quitquitquit failed, reason: connect ECONNREFUSED 127.0.0.1:5001"))
    KeepsRunning.

Definition options_with (rt : option Runtime) : Options :=
  {| config_functions_source := "functions";
     config_functions_runtime := rt;
     config_path := fun p => "/work/" +:+ p;
     getProjectId := "demo-project" |}.

Definition fn_delegate : Delegate :=
  new_Delegate "demo-project" "/work/functions" "go113"
    (fn_module (Some "1.13")).

Definition ECONNREFUSED : JsError :=
  Error "request to http://localhost:5001/quitquitquit failed, reason: connect ECONNREFUSED 127.0.0.1:5001".

End Scenario.

(** ** The shape of traces *)

Module Shape.

Definition is_spawn (ev : Event) : bool :=
  match ev with
  | EvSpawn _ _ _ _ => true
  | _ => false
  end.

Definition is_fetch (ev : Event) : bool :=
  match ev with
  | EvFetch _ => true
  | _ => false
  end.

Definition is_write (ev : Event) : bool :=
  match ev with
  | EvWriteFile _ _ => true
  | _ => false
  end.

(** What the timer's callback adds to the trace, by the child's [killed]
    flag. *)
Definition kill_events (killed : bool) : list Event :=
  if killed then [] else [EvKill "SIGKILL"; EvChildExit].

(** What awaiting [p] adds to the trace. *)
Definition settle_events (host : Host) (killed : bool) : list Event :=
  match child_fate host with
  | FailsWith e => [EvChildError e]
  | ExitsAfter ms => if ms <? GRACE_MS then [EvChildExit] else kill_events killed
  | KeepsRunning => kill_events killed
  | ExitedBefore => []
  end.

(** What one run of the stop handle adds to the trace. *)
Definition stop_events (host : Host) (adminPort : Z) (killed : bool)
    : list Event :=
  [EvOnce "exit"; EvOnce "error"; EvFetch (quit_url adminPort)] ++
  match fetch host (quit_url adminPort) with
  | Returns _ => EvSetTimeout GRACE_MS :: settle_events host killed
  | _ => []
  end.

(** The events of [w'] that [w] does not have yet. *)
Definition added (w w' : World) : list Event :=
  drop (length (trace w)) (trace w').

End Shape.
Export Shape.

(** ** More hosts *)

Module Vary.

Definition with_mkdir (made : Outcome unit) (h : Host) : Host :=
  {| process_env := process_env h; path_join := path_join h;
     fs_readFile := fs_readFile h;
     modules_parseModule := modules_parseModule h;
     fs_mkdir := fun _ => made;
     spawn_sync := spawn_sync h; fs_writeFile := fs_writeFile h;
     portfinder_getPort := portfinder_getPort h;
     discovery_detectFromYaml := discovery_detectFromYaml h;
     discovery_detectFromPort := discovery_detectFromPort h;
     fetch := fetch h; child_fate := child_fate h |}.

Definition with_getPort (ports : nat -> Outcome Z) (h : Host) : Host :=
  {| process_env := process_env h; path_join := path_join h;
     fs_readFile := fs_readFile h;
     modules_parseModule := modules_parseModule h;
     fs_mkdir := fs_mkdir h;
     spawn_sync := spawn_sync h; fs_writeFile := fs_writeFile h;
     portfinder_getPort := ports;
     discovery_detectFromYaml := discovery_detectFromYaml h;
     discovery_detectFromPort := discovery_detectFromPort h;
     fetch := fetch h; child_fate := child_fate h |}.

Definition with_process_env (env : gmap string string) (h : Host) : Host :=
  {| process_env := env; path_join := path_join h;
     fs_readFile := fs_readFile h;
     modules_parseModule := modules_parseModule h;
     fs_mkdir := fs_mkdir h;
     spawn_sync := spawn_sync h; fs_writeFile := fs_writeFile h;
     portfinder_getPort := portfinder_getPort h;
     discovery_detectFromYaml := discovery_detectFromYaml h;
     discovery_detectFromPort := discovery_detectFromPort h;
     fetch := fetch h; child_fate := child_fate h |}.

(** mkdir is refused for a reason other than the directory existing. *)
Definition host_mkdir_denied : Host :=
  with_mkdir (Throws (Error "EACCES: permission denied, mkdir 'autogen'"))
    (Scenario.host_codegen Scenario.codegen_ok).

(** The codegen command was ended by a signal: no exit status. *)
Definition codegen_signalled : SpawnSyncReturns :=
  Ran None "" "signal: killed".

(** The go command is not installed: nothing ran. *)
Definition codegen_not_started : SpawnSyncReturns :=
  NotStarted (Error "spawnSync go ENOENT").

(** The quit request returns, and the child had exited before the stop
    handle was invoked. *)
Definition host_child_gone : Host :=
  Scenario.host_discovery (Returns None)
    (Returns (Some Scenario.hello_backend))
    (Returns tt) ExitedBefore.

(** No yaml file, and no port to be had. *)
Definition host_no_ports : Host :=
  with_getPort (fun _ => Throws (Error "No open ports available"))
    Scenario.host_dynamic.

(** No yaml file; the first port is handed out, the second is not. *)
Definition host_one_port : Host :=
  with_getPort
    (fun n => match n with
              | O => Returns 5000
              | _ => Throws (Error "No open ports available")
              end)
    Scenario.host_dynamic.

(** Reading the yaml file throws. *)
Definition host_yaml_broken : Host :=
  Scenario.host_discovery (Throws (Error "functions.yaml is not valid"))
    (Returns (Some Scenario.hello_backend)) (Returns tt) (ExitsAfter 50).

(** The quit request returns and the child reports an error. *)
Definition host_child_errors : Host :=
  Scenario.host_discovery (Returns None)
    (Returns (Some Scenario.hello_backend))
    (Returns tt) (FailsWith (Error "kill EPERM")).

(** No PATH is inherited. *)
Definition host_bare_env : Host :=
  with_process_env {[ "HOME" := "/home/dev" ]} Scenario.host_dynamic.

End Vary.

(** ** hosting/release.ts: the release of one deploy *)

Module Hosting.

(** One entry of [context.hosting.deploys]: [version] is set by an earlier
    phase and may be missing; [config] is passed on unread. *)
Record Deploy : Type := {
  site : string;
  deploy_version : option string;
  deploy_config : string
}.

(** What is thrown: the assertion's [FirebaseError(message, { exit })], or
    whatever a call made by the function threw. *)
Inductive Failure : Type :=
| Assertion (msg : string) (exit : Z)
| Raised (e : JsError).

Inductive Ending (A : Type) : Type :=
| Done (a : A)
| Failed (f : Failure)
| Waiting.
Arguments Done {A} a.
Arguments Failed {A} f.
Arguments Waiting {A}.

Inductive Step : Type :=
| Bullet (label msg : string)
| Success (label msg : string)
| Debug (args : list string)
| ConvertConfig (config : string)
| Patch (path status config updateMask : string)
| Post (path : string) (message : option string) (versionName : string).

(** The answers of [convertConfig] and of the REST client; a response is
    taken by the text of its [body]. *)
Record Api : Type := {
  convertConfig : string -> Outcome string;
  client_patch : string -> string -> Outcome string;
  client_post : string -> option string -> string -> Outcome string
}.

Definition H (A : Type) : Type := list Step -> Ending A * list Step.

Definition pure {A} (a : A) : H A := fun t => (Done a, t).

Definition fail {A} (f : Failure) : H A := fun t => (Failed f, t).

Definition then_ {A B} (m : H A) (k : A -> H B) : H B :=
  fun t =>
    match m t with
    | (Done a, t') => k a t'
    | (Failed f, t') => (Failed f, t')
    | (Waiting, t') => (Waiting, t')
    end.

(** A step whose answer is awaited. *)
Definition await {A} (s : Step) (r : Outcome A) : H A :=
  fun t =>
    (match r with
     | Returns a => Done a
     | Throws e => Failed (Raised e)
     | Pending => Waiting
     end,
     t ++ [s]).

Definition note (s : Step) : H unit := fun t => (Done tt, t ++ [s]).

(** [context.hostingChannel && context.hostingChannel !== "live"
      ? `/channels/${context.hostingChannel}` : ""] *)
Definition channelSegment (hostingChannel : option string) : string :=
  if truthy hostingChannel && negb (String.eqb (default "" hostingChannel) "live")
  then "/channels/" +:+ default "" hostingChannel
  else "".

(** [options.message || null] *)
Definition message_or_null (message : option string) : option string :=
  if truthy message then message else None.

Definition hosting_label (deploy : Deploy) : string :=
  "hosting[" +:+ site deploy +:+ "]".

Definition release_path (projectNumber : string) (deploy : Deploy)
    (hostingChannel : option string) : string :=
  "/projects/" +:+ projectNumber +:+ "/sites/" +:+ site deploy +:+
  channelSegment hostingChannel +:+ "/releases".

(** The function mapped over the deploys by [release]: finalize the
    version of one deploy, then release it. *)
Definition release_deploy (api : Api) (hostingChannel message : option string)
    (projectNumber : string) (deploy : Deploy) : H unit :=
  if negb (truthy (deploy_version deploy)) then
    fail (Assertion
      "Assertion failed: Hosting version should have been set in the prepare phase"
      2)
  else
    let version := default "" (deploy_version deploy) in
    then_ (note (Bullet (hosting_label deploy) "finalizing version..."))
      (fun _ =>
    then_ (await (ConvertConfig (deploy_config deploy))
             (convertConfig api (deploy_config deploy)))
      (fun config =>
    then_ (await (Patch ("/" +:+ version) "FINALIZED" config "status,config")
             (client_patch api ("/" +:+ version) config))
      (fun finalized =>
    then_ (note (Debug ["[hosting] finalized version for " +:+ site deploy +:+
                        ":" +:+ finalized]))
      (fun _ =>
    then_ (note (Success (hosting_label deploy) "version finalized"))
      (fun _ =>
    then_ (note (Bullet (hosting_label deploy) "releasing new version..."))
      (fun _ =>
    then_ (if negb (String.eqb (channelSegment hostingChannel) "")
           then note (Debug ["[hosting] releasing to channel:";
                             default "" hostingChannel])
           else pure tt)
      (fun _ =>
    then_ (await (Post (release_path projectNumber deploy hostingChannel)
                    (message_or_null message) version)
             (client_post api (release_path projectNumber deploy hostingChannel)
                (message_or_null message) version))
      (fun released =>
    then_ (note (Debug ["[hosting] release:"; released]))
      (fun _ =>
    note (Success (hosting_label deploy) "release complete")))))))))).

Definition is_post (s : Step) : bool :=
  match s with
  | Post _ _ _ => true
  | _ => false
  end.

Definition is_request (s : Step) : bool :=
  match s with
  | Patch _ _ _ _ | Post _ _ _ => true
  | _ => false
  end.

(** A deploy and an API for the examples. *)
Definition blog (v : option string) : Deploy :=
  {| site := "blog"; deploy_version := v; deploy_config := "{}" |}.

Definition api_with (patched posted : Outcome string) : Api :=
  {| convertConfig := fun c => Returns ("converted " +:+ c);
     client_patch := fun _ _ => patched;
     client_post := fun _ _ _ => posted |}.

End Hosting.

(** * Properties *)

(** ** Substrings *)

Lemma prefix_refl (n : string) : String.prefix n n = true.
Proof.
  induction n as [|c n IH]; [reflexivity|].
  simpl. destruct (Ascii.ascii_dec c c); [assumption | congruence].
Qed.

Lemma prefix_append_l (n a b : string) :
  String.prefix n a = true -> String.prefix n (a +:+ b) = true.
Proof.
  revert n. induction a as [|c a IH]; intros n H.
  - destruct n; [destruct b; reflexivity | discriminate].
  - destruct n as [|c' n]; [reflexivity|].
    simpl in *. destruct (Ascii.ascii_dec c' c); [auto | discriminate].
Qed.

Lemma includes_here (n h : string) :
  String.prefix n h = true -> includes n h = true.
Proof. intros H. destruct h; cbn [includes]; rewrite H; reflexivity. Qed.

Lemma includes_refl (n : string) : includes n n = true.
Proof. apply includes_here, prefix_refl. Qed.

Lemma includes_append_r (n a b : string) :
  includes n b = true -> includes n (a +:+ b) = true.
Proof.
  intros H. induction a as [|c a IH]; [exact H|].
  change (String c a +:+ b) with (String c (a +:+ b)).
  cbn [includes]. rewrite IH. apply orb_true_r.
Qed.

Lemma includes_append_l (n a b : string) :
  includes n a = true -> includes n (a +:+ b) = true.
Proof.
  induction a as [|c a IH]; intros H.
  - destruct n; [destruct b; reflexivity | discriminate].
  - cbn [includes] in H. apply orb_true_iff in H as [H|H].
    + apply includes_here. apply (prefix_append_l n (String c a) b H).
    + change (String c a +:+ b) with (String c (a +:+ b)).
      cbn [includes]. rewrite (IH H). apply orb_true_r.
Qed.

Create HintDb includes.

#[local] Hint Resolve includes_refl includes_append_l includes_append_r
  : includes.

(** ** Unfolding the monad *)

Ltac js_unfold :=
  unfold run, bind, try_catch, try_finally, emit, perform, call, ret, throw
    in *.

(** ** [tryCreateDelegate] *)

Section TryCreateDelegate.

Variable host : Host.
Variable options : Options.

Abbreviation sourceDir_ := (config_path options (config_functions_source options)).
Abbreviation goModPath_ := (path_join host [sourceDir_; "go.mod"]).
Abbreviation not_golang_ :=
  "Customer code is not Golang code (or they aren't using modules)".

Lemma read_go_mod_ok (text : string) (m : modules_Module) :
  fs_readFile host goModPath_ = Returns text ->
  modules_parseModule host text = Returns m ->
  read_go_mod host goModPath_ start
  = (Returns (Some m), after [EvReadFile goModPath_]).
Proof.
  intros Hread Hparse. unfold read_go_mod, readFile, parseModule.
  js_unfold. rewrite Hread, Hparse. reflexivity.
Qed.

Lemma read_go_mod_never_throws (e : JsError) :
  fst (read_go_mod host goModPath_ start) <> Throws e.
Proof.
  unfold read_go_mod, readFile, parseModule, logger_debug. js_unfold.
  destruct (fs_readFile host goModPath_) as [text| |]; simpl; try discriminate.
  destruct (modules_parseModule host text); simpl; discriminate.
Qed.

(** C9, as amended: when go.mod cannot be read, and just as well when it
    is read and does not parse, [tryCreateDelegate] resolves to
    [undefined] after one debug line; it throws in neither case, and the
    two cases end alike. *)
Theorem tryCreateDelegate_not_golang (e : JsError) :
  fs_readFile host goModPath_ = Throws e \/
  (exists text, fs_readFile host goModPath_ = Returns text /\
                modules_parseModule host text = Throws e) ->
  run (tryCreateDelegate host options)
  = (Returns None, after [EvReadFile goModPath_; EvLogDebug not_golang_]).
Proof.
  intros [Hread | (text & Hread & Hparse)];
    unfold tryCreateDelegate, read_go_mod, readFile, parseModule, logger_debug;
    js_unfold; rewrite Hread; simpl; rewrite ?Hparse; reflexivity.
Qed.

(** C10: with [functions.runtime] set, [tryCreateDelegate] never throws,
    and once go.mod is read and parsed it resolves to a delegate of the
    configured runtime whatever the module's version is: missing, empty,
    or absent from [VERSION_TO_RUNTIME]. *)
Theorem runtime_override_skips_version_check (r : Runtime) :
  config_functions_runtime options = Some r ->
  truthy (Some r) = true ->
  (forall e, fst (run (tryCreateDelegate host options)) <> Throws e) /\
  (forall text m,
     fs_readFile host goModPath_ = Returns text ->
     modules_parseModule host text = Returns m ->
     run (tryCreateDelegate host options)
     = (Returns (Some (new_Delegate (getProjectId options) sourceDir_ r m)),
        after [EvReadFile goModPath_])).
Proof.
  intros Hcfg Hset. split.
  - intros e. unfold tryCreateDelegate, run.
    pose proof (read_go_mod_never_throws e) as Hnot.
    unfold bind at 1.
    destruct (read_go_mod host goModPath_ start) as [[[m|]| |] w];
      simpl in Hnot |- *; try congruence.
    rewrite Hcfg, Hset. js_unfold. discriminate.
  - intros text m Hread Hparse. unfold tryCreateDelegate, run.
    unfold bind at 1. rewrite (read_go_mod_ok text m Hread Hparse).
    rewrite Hcfg, Hset. reflexivity.
Qed.


End TryCreateDelegate.

Lemma tryCreateDelegate_not_golang_witness :
  fs_readFile Scenario.host_no_go_mod "/work/functions/go.mod"
  = Throws (Error "ENOENT: no such file or directory, open 'go.mod'") /\
  run (tryCreateDelegate Scenario.host_no_go_mod (Scenario.options_with None))
  = (Returns None,
     after [EvReadFile "/work/functions/go.mod";
            EvLogDebug
              "Customer code is not Golang code (or they aren't using modules)"]).
Proof.
  split; [reflexivity|].
  apply (tryCreateDelegate_not_golang Scenario.host_no_go_mod
           (Scenario.options_with None)
           (Error "ENOENT: no such file or directory, open 'go.mod'")).
  left. reflexivity.
Defined.

(** C9, as stated, fails: a go.mod that is present and does not parse ends
    exactly as a missing one does, outcome and trace alike, so the absent
    manifest is not told apart from the parse failure. *)
Lemma absent_and_unparsable_manifest_end_alike :
  fs_readFile Scenario.host_no_go_mod "/work/functions/go.mod"
  = Throws (Error "ENOENT: no such file or directory, open 'go.mod'") /\
  fs_readFile Scenario.host_bad_go_mod "/work/functions/go.mod"
  = Returns "not a module file" /\
  modules_parseModule Scenario.host_bad_go_mod "not a module file"
  = Throws (Error "Module has no name") /\
  run (tryCreateDelegate Scenario.host_bad_go_mod (Scenario.options_with None))
  = run (tryCreateDelegate Scenario.host_no_go_mod (Scenario.options_with None)).
Proof. repeat split; vm_compute; reflexivity. Qed.

Lemma runtime_override_skips_version_check_witness :
  version (Scenario.fn_module (Some "9.99")) = Some "9.99" /\
  get VERSION_TO_RUNTIME "9.99" = None /\
  run (tryCreateDelegate (Scenario.host_go_mod (Some "9.99"))
         (Scenario.options_with (Some "go113")))
  = (Returns (Some (new_Delegate "demo-project" "/work/functions" "go113"
                      (Scenario.fn_module (Some "9.99")))),
     after [EvReadFile "/work/functions/go.mod"]).
Proof.
  split; [reflexivity|]. split; [reflexivity|].
  apply (proj2 (runtime_override_skips_version_check
                  (Scenario.host_go_mod (Some "9.99"))
                  (Scenario.options_with (Some "go113")) "go113"
                  eq_refl eq_refl)
           "module example.com/fn" (Scenario.fn_module (Some "9.99"))
           eq_refl eq_refl).
Defined.



(** The supported version of the scenario in the specification resolves to
    its runtime. *)
Example supported_version_resolves :
  run (tryCreateDelegate (Scenario.host_go_mod (Some "1.13"))
         (Scenario.options_with None))
  = (Returns (Some Scenario.fn_delegate),
     after [EvReadFile "/work/functions/go.mod"]).
Proof. vm_compute. reflexivity. Qed.

(** ** [Delegate.build] *)

Section Build.

Variable host : Host.
Variable d : Delegate.

Abbreviation autogen_ := (path_join host [sourceDir d; "autogen"]).
Abbreviation main_go_ := (path_join host [sourceDir d; "autogen"; "main.go"]).
Abbreviation getDeps_ :=
  (spawn_sync host "go" ["run"; FUNCTIONS_CODEGEN; module (module_ d)]
     (sourceDir d)).
Abbreviation codegen_events_ :=
  [EvMkdir autogen_;
   EvSpawnSync "go" ["run"; FUNCTIONS_CODEGEN; module (module_ d)]
     (sourceDir d)].

(** C8: once the autogen directory is in place the codegen command is run;
    when it exits with a status other than zero, [build] throws the
    [FirebaseError] "Failed to run codegen" whose only child is an [Error]
    carrying the captured stderr, and nothing is written; when it exits
    with zero, its stdout is written, unchanged, to autogen/main.go under
    the source directory, and [build] ends as that write does. *)
Theorem build_codegen_outcomes :
  autogen_ready host d ->
  (forall n, status getDeps_ = Some n -> n <> 0 ->
     run (build host d)
     = (Throws (FirebaseError "Failed to run codegen"
                  [Error (stderr getDeps_)]),
        after codegen_events_)) /\
  (status getDeps_ = Some 0 ->
     run (build host d)
     = (fs_writeFile host main_go_ (stdout getDeps_),
        after (codegen_events_ ++ [EvWriteFile main_go_ (stdout getDeps_)]))).
Proof.
  intros Hdir.
  assert (Hmk : try_catch (mkdir host autogen_)
                  (fun err =>
                     if negb (includes "EEXIST" (message err)) then
                       throw (FirebaseError "Failed to create codegen directory" [err])
                     else ret tt) start
                = (Returns tt, after [EvMkdir autogen_])).
  { unfold mkdir. js_unfold.
    destruct Hdir as [H | (err & H & Hmsg)]; rewrite H; simpl;
      rewrite ?Hmsg; reflexivity. }
  split.
  - intros n Hst Hn. unfold build, run. unfold bind at 1. rewrite Hmk.
    unfold spawn_sync_in. js_unfold. simpl.
    destruct getDeps_ as [s out err|e]; cbn [status stderr] in Hst |- *;
      [|discriminate Hst].
    rewrite Hst. simpl. apply Z.eqb_neq in Hn. rewrite Hn. reflexivity.
  - intros Hst. unfold build, run. unfold bind at 1. rewrite Hmk.
    unfold spawn_sync_in, writeFile. js_unfold. simpl. rewrite Hst. simpl.
    reflexivity.
Qed.

End Build.

Lemma build_codegen_outcomes_witness :
  run (build (Scenario.host_codegen Scenario.codegen_failed)
         Scenario.fn_delegate)
  = (Throws (FirebaseError "Failed to run codegen" [Error "module not found"]),
     after [EvMkdir "/work/functions/autogen";
            EvSpawnSync "go"
              ["run"; "github.com/inlined/go-functions/support/codegen";
               "example.com/fn"]
              "/work/functions"]) /\
  run (build (Scenario.host_codegen Scenario.codegen_ok) Scenario.fn_delegate)
  = (Returns tt,
     after [EvMkdir "/work/functions/autogen";
            EvSpawnSync "go"
              ["run"; "github.com/inlined/go-functions/support/codegen";
               "example.com/fn"]
              "/work/functions";
            EvWriteFile "/work/functions/autogen/main.go" "package main"]).
Proof.
  assert (Hdir : forall c,
            autogen_ready (Scenario.host_codegen c) Scenario.fn_delegate).
  { intros c. right.
    exists (Error "EEXIST: file already exists, mkdir 'autogen'").
    split; reflexivity. }
  split.
  - apply (proj1 (build_codegen_outcomes
                    (Scenario.host_codegen Scenario.codegen_failed)
                    Scenario.fn_delegate (Hdir _)) 1 eq_refl).
    discriminate.
  - apply (proj2 (build_codegen_outcomes
                    (Scenario.host_codegen Scenario.codegen_ok)
                    Scenario.fn_delegate (Hdir _)) eq_refl).
Defined.

(** ** [Delegate.serve]: the child's environment *)

Section ServeEnv.

Variable host : Host.
Variables port adminPort : Z.
Variable envs : gmap string string.

Lemma child_environment_lookup (env : Obj) (k : string) :
  child_environment env !! k = env !! k ≫= id.
Proof. unfold child_environment. apply lookup_omap. Qed.

(** A variable other than the four named ones: the inherited value when
    there is one, the user's otherwise. *)
Lemma serve_env_other (k : string) :
  k <> "GOPATH" -> k <> "PORT" -> k <> "ADMIN_PORT" -> k <> "PATH" ->
  child_environment (serve_env host port adminPort envs) !! k
  = match process_env host !! k with
    | Some v => Some v
    | None => envs !! k
    end.
Proof.
  intros H1 H2 H3 H4. rewrite child_environment_lookup.
  unfold serve_env, prop, spread, of_record.
  rewrite !lookup_insert_ne by congruence.
  rewrite lookup_union, !lookup_fmap.
  destruct (process_env host !! k), (envs !! k); reflexivity.
Qed.

Lemma serve_env_ports :
  child_environment (serve_env host port adminPort envs) !! "PORT"
  = Some (Number_toString port) /\
  child_environment (serve_env host port adminPort envs) !! "ADMIN_PORT"
  = Some (Number_toString adminPort).
Proof.
  rewrite !child_environment_lookup. unfold serve_env, prop.
  split.
  - rewrite lookup_insert_ne by discriminate.
    rewrite lookup_insert_ne by discriminate.
    rewrite lookup_insert_eq. reflexivity.
  - rewrite lookup_insert_ne by discriminate.
    rewrite lookup_insert_eq. reflexivity.
Qed.

Lemma serve_env_toolchain :
  child_environment (serve_env host port adminPort envs) !! "PATH"
  = process_env host !! "PATH" /\
  child_environment (serve_env host port adminPort envs) !! "GOPATH"
  = process_env host !! "GOPATH".
Proof.
  rewrite !child_environment_lookup. unfold serve_env, prop.
  split.
  - rewrite lookup_insert_eq. reflexivity.
  - rewrite !lookup_insert_ne by discriminate.
    rewrite lookup_insert_eq. reflexivity.
Qed.

(** With the inherited environment spread last, writing PATH and GOPATH
    again changes nothing once both are inherited. *)
Lemma serve_env_reassertion_idle (path gopath : string) :
  process_env host !! "PATH" = Some path ->
  process_env host !! "GOPATH" = Some gopath ->
  serve_env host port adminPort envs
  = prop (prop (spread (of_record envs) (of_record (process_env host)))
            "PORT" (Some (Number_toString port)))
      "ADMIN_PORT" (Some (Number_toString adminPort)).
Proof.
  intros Hpath Hgo. apply map_eq. intros k.
  unfold serve_env, prop, spread, of_record.
  rewrite !lookup_insert.
  repeat case_decide; subst; try reflexivity; try congruence.
  - rewrite lookup_union, !lookup_fmap, Hpath.
    destruct (envs !! "PATH"); reflexivity.
  - rewrite lookup_union, !lookup_fmap, Hgo.
    destruct (envs !! "GOPATH"); reflexivity.
Qed.

(** The code and the specification's wording agree on every variable that
    is not both inherited and user-supplied. *)
Lemma serve_env_agrees_off_clashes (k : string) :
  process_env host !! k = None \/ envs !! k = None ->
  child_environment (serve_env host port adminPort envs) !! k
  = child_environment (Spec.layered_env host port adminPort envs) !! k.
Proof.
  intros Hk. rewrite !child_environment_lookup.
  unfold serve_env, Spec.layered_env, prop, spread, of_record.
  rewrite !lookup_insert.
  repeat case_decide; subst; try reflexivity; try congruence.
  rewrite !lookup_union, !lookup_fmap.
  destruct Hk as [Hk|Hk]; rewrite Hk;
    [destruct (envs !! k) | destruct (process_env host !! k)]; reflexivity.
Qed.

(** C2, as amended: the child's environment is layered, in increasing
    precedence, from the user-supplied [envs], then the inherited process
    environment, then the four variables written out: GOPATH and PATH with
    their inherited values, PORT and ADMIN_PORT with the two ports.  An
    inherited variable thus overrides the user's variable of the same
    name. *)
Theorem serve_env_layering (k : string) :
  child_environment (serve_env host port adminPort envs) !! k
  = if decide (k = "PATH") then process_env host !! "PATH"
    else if decide (k = "ADMIN_PORT") then Some (Number_toString adminPort)
    else if decide (k = "PORT") then Some (Number_toString port)
    else if decide (k = "GOPATH") then process_env host !! "GOPATH"
    else match process_env host !! k with
         | Some v => Some v
         | None => envs !! k
         end.
Proof.
  repeat case_decide; subst.
  - apply serve_env_toolchain.
  - apply serve_env_ports.
  - apply serve_env_ports.
  - apply serve_env_toolchain.
  - apply serve_env_other; assumption.
Qed.

End ServeEnv.

(** C2, as stated, fails: with REGION both inherited and user-supplied,
    the child started by [serve] sees the inherited value, where the
    layering of the specification gives the user's. *)
Lemma serve_env_inherited_beats_user :
  Scenario.inherited !! "REGION" = Some "inherited" /\
  Scenario.user_envs !! "REGION" = Some "user" /\
  child_environment
    (serve_env (Scenario.host_go_mod (Some "1.13")) 5000 5001
       Scenario.user_envs) !! "REGION"
  = Some "inherited" /\
  child_environment
    (Spec.layered_env (Scenario.host_go_mod (Some "1.13")) 5000 5001
       Scenario.user_envs) !! "REGION"
  = Some "user".
Proof. repeat split; vm_compute; reflexivity. Qed.

(** ** The stop handle *)

Section Stop.

Variable host : Host.
Variable adminPort : Z.

Abbreviation asked_to_quit_ w :=
  (log (EvFetch (quit_url adminPort))
     (log (EvOnce "error") (log (EvOnce "exit") w))).

(** When the quit request throws, the handle throws the same error right
    there: no timer is set and no signal is sent. *)
Lemma stop_quit_request_throws (w : World) (e : JsError) :
  fetch host (quit_url adminPort) = Throws e ->
  stop host adminPort w = (Throws e, asked_to_quit_ w).
Proof. intros H. unfold stop. js_unfold. rewrite H. reflexivity. Qed.

(** When the quit request returns, the timer is set and the handle ends
    as [p] does. *)
Lemma stop_quit_request_returns (w : World) :
  fetch host (quit_url adminPort) = Returns tt ->
  stop host adminPort w
  = await_p host (log (EvSetTimeout GRACE_MS) (asked_to_quit_ w)).
Proof.
  intros H. unfold stop. js_unfold. rewrite H. reflexivity.
Qed.

(** After a quit request that returned, a child that was still running
    when the handle was invoked and that does not report an error has
    exited when the handle resolves: on its own within the grace period, by
    SIGKILL otherwise. *)
Lemma stop_ends_child (w : World) :
  fetch host (quit_url adminPort) = Returns tt ->
  child_killed w = false ->
  (forall e, child_fate host <> FailsWith e) ->
  child_fate host <> ExitedBefore ->
  exists w',
    stop host adminPort w = (Returns tt, w') /\
    added w w'
    = [EvOnce "exit"; EvOnce "error"; EvFetch (quit_url adminPort);
       EvSetTimeout GRACE_MS] ++
      match child_fate host with
      | ExitsAfter ms =>
          if ms <? GRACE_MS then [EvChildExit]
          else [EvKill "SIGKILL"; EvChildExit]
      | _ => [EvKill "SIGKILL"; EvChildExit]
      end /\
    last (trace w') = Some EvChildExit /\
    child_killed w'
    = match child_fate host with
      | ExitsAfter ms => negb (ms <? GRACE_MS)
      | _ => true
      end.
Proof.
  intros Hq Hk Hfate Hgone. rewrite (stop_quit_request_returns w Hq).
  unfold await_p.
  destruct (child_fate host) as [ms| |e|];
    [destruct (ms <? GRACE_MS)| |exfalso; apply (Hfate e); reflexivity
    |exfalso; apply Hgone; reflexivity];
    unfold timeout_fires, emit, perform; cbn [log trace child_killed];
    rewrite ?Hk; cbn [negb];
    eexists; (split; [reflexivity|]);
    unfold added; cbn [log trace child_killed];
    (split; [rewrite <- !app_assoc; apply drop_app_length|]);
    rewrite last_snoc, ?Hk; split; reflexivity.
Qed.

(** C1, as amended: when the quit request fails the stop handle rejects
    with the request's error and goes no further: the timer is not set and
    the child is not signalled.  When the request returns and the child
    was still running when the handle was invoked, the timer is set and,
    unless the child reports an error, the handle resolves with the
    child's exit, on its own within the grace period or by the SIGKILL
    that is sent when the timer fires. *)
Theorem stop_handle_outcomes (w : World) :
  (forall e,
     fetch host (quit_url adminPort) = Throws e ->
     stop host adminPort w = (Throws e, asked_to_quit_ w)) /\
  (fetch host (quit_url adminPort) = Returns tt ->
   child_killed w = false ->
   (forall e, child_fate host <> FailsWith e) ->
   child_fate host <> ExitedBefore ->
   exists w',
     stop host adminPort w = (Returns tt, w') /\
     added w w'
     = [EvOnce "exit"; EvOnce "error"; EvFetch (quit_url adminPort);
        EvSetTimeout GRACE_MS] ++
       match child_fate host with
       | ExitsAfter ms =>
           if ms <? GRACE_MS then [EvChildExit]
           else [EvKill "SIGKILL"; EvChildExit]
       | _ => [EvKill "SIGKILL"; EvChildExit]
       end /\
     last (trace w') = Some EvChildExit /\
     child_killed w'
     = match child_fate host with
       | ExitsAfter ms => negb (ms <? GRACE_MS)
       | _ => true
       end).
Proof.
  split.
  - intros e. apply stop_quit_request_throws.
  - apply stop_ends_child.
Qed.

Lemma continues_refl (t : list Event) : continues_without_probe t t.
Proof. exists []. split; [symmetry; apply app_nil_r | constructor]. Qed.

Lemma continues_snoc (t0 t : list Event) (ev : Event) :
  continues_without_probe t0 t -> is_probe ev = false ->
  continues_without_probe t0 (t ++ [ev]).
Proof.
  intros (evs & -> & Hall) Hev. exists (evs ++ [ev]). split.
  - symmetry. apply app_assoc.
  - apply Forall_app. split; [assumption | repeat constructor; assumption].
Qed.

(** Whatever happens, the handle only adds to the trace, and never a
    probe. *)
Lemma stop_trace (w : World) :
  continues_without_probe (trace w) (trace (snd (stop host adminPort w))).
Proof.
  unfold stop, await_p, timeout_fires. js_unfold.
  destruct (fetch host (quit_url adminPort)) as [[]| |];
    [destruct (child_fate host) as [ms| |e|];
       [destruct (ms <? GRACE_MS)| | |]| |];
    cbn [log trace child_killed snd negb];
    try destruct (child_killed w);
    cbn [log trace child_killed snd negb];
    repeat (apply continues_snoc; [|reflexivity]);
    apply continues_refl.
Qed.

End Stop.

(** C1, as stated, fails: the quit request is refused while the child
    keeps running; the stop handle rejects with the request's error, and
    the trace ends at the request: no timer was set, no signal was sent,
    the child has not exited. *)
Lemma stop_aborts_when_quit_request_fails :
  child_fate Scenario.host_quit_refused = KeepsRunning /\
  run (stop Scenario.host_quit_refused 5001)
  = (Throws Scenario.ECONNREFUSED,
     after [EvOnce "exit"; EvOnce "error";
            EvFetch "http://localhost:5001/quitquitquit"]) /\
  filter (fun ev => ends_child ev = true)
    (trace (snd (run (stop Scenario.host_quit_refused 5001))))
  = [].
Proof. repeat split; vm_compute; reflexivity. Qed.

(** A child that keeps running, asked to quit by a request that returns,
    is ended by SIGKILL when the grace period is over. *)
Example stop_kills_unresponsive_child :
  run (stop Scenario.host_unresponsive 5001)
  = (Returns tt,
     {| trace := [EvOnce "exit"; EvOnce "error";
                  EvFetch "http://localhost:5001/quitquitquit";
                  EvSetTimeout 10000; EvKill "SIGKILL"; EvChildExit];
        ports_requested := 0;
        child_killed := true |}).
Proof. vm_compute. reflexivity. Qed.

Lemma stop_handle_outcomes_witness :
  stop Scenario.host_quit_refused 5001 start
  = (Throws Scenario.ECONNREFUSED,
     after [EvOnce "exit"; EvOnce "error";
            EvFetch "http://localhost:5001/quitquitquit"]) /\
  (exists w',
     stop Scenario.host_unresponsive 5001 start = (Returns tt, w') /\
     added start w'
     = [EvOnce "exit"; EvOnce "error";
        EvFetch "http://localhost:5001/quitquitquit"; EvSetTimeout 10000;
        EvKill "SIGKILL"; EvChildExit] /\
     last (trace w') = Some EvChildExit /\
     child_killed w' = true) /\
  (exists w',
     stop Scenario.host_dynamic 5001 start = (Returns tt, w') /\
     added start w'
     = [EvOnce "exit"; EvOnce "error";
        EvFetch "http://localhost:5001/quitquitquit"; EvSetTimeout 10000;
        EvChildExit] /\
     last (trace w') = Some EvChildExit /\
     child_killed w' = false).
Proof.
  split; [|split].
  - apply (proj1 (stop_handle_outcomes Scenario.host_quit_refused 5001 start)
             Scenario.ECONNREFUSED eq_refl).
  - apply (proj2 (stop_handle_outcomes Scenario.host_unresponsive 5001 start)
             eq_refl eq_refl); discriminate.
  - apply (proj2 (stop_handle_outcomes Scenario.host_dynamic 5001 start)
             eq_refl eq_refl); discriminate.
Defined.

(** ** [Delegate.discoverSpec] *)

Lemma no_probe_filtered (evs : list Event) :
  Forall (fun ev => is_probe ev = false) evs ->
  filter (fun ev => is_probe ev = true) evs = [].
Proof.
  induction 1 as [|ev evs Hev _ IH]; [reflexivity|].
  rewrite filter_cons_False; [exact IH | congruence].
Qed.

Lemma set_environmentVariables_result (m : M (option Backend))
    (envs : gmap string string) (w w' : World) (b : Backend) :
  bind m (fun found => set_environmentVariables found envs) w
  = (Returns b, w') ->
  environmentVariables b = envs.
Proof.
  unfold bind. destruct (m w) as [[[found|]| |] w1]; simpl;
    intros H; inversion H; reflexivity.
Qed.

Section DiscoverSpec.

Variable host : Host.
Variable d : Delegate.
Variable configValues : gmap string string.
Variable envs : gmap string string.

Abbreviation yaml_ :=
  (discovery_detectFromYaml host (sourceDir d) (projectId d) (runtime d)).
Abbreviation probe_ :=
  (discovery_detectFromPort host 8081 (projectId d) (runtime d)).

(** C4: whenever [discoverSpec] returns a backend, by either path and from
    any world, that backend's [environmentVariables] is the [envs]
    argument. *)
Theorem discoverSpec_environmentVariables (w w' : World) (b : Backend) :
  discoverSpec host d configValues envs w = (Returns b, w') ->
  environmentVariables b = envs.
Proof.
  unfold discoverSpec. unfold bind at 1.
  destruct (detectFromYaml host _ _ _ w) as [[found| |] w1];
    [|discriminate|discriminate].
  apply set_environmentVariables_result.
Qed.

(** C5: when the yaml discovery finds a backend, [discoverSpec] returns it
    (with [envs]) having done nothing else: no port was requested, no
    child was started, no port was probed. *)
Theorem static_spec_skips_dynamic_discovery (b : Backend) :
  yaml_ = Returns (Some b) ->
  run (discoverSpec host d configValues envs)
  = (Returns {| deployables := deployables b; environmentVariables := envs |},
     after [EvDetectFromYaml (sourceDir d) (projectId d) (runtime d)]) /\
  ports_requested (snd (run (discoverSpec host d configValues envs))) = 0%nat /\
  filter (fun ev => is_dynamic ev = true)
    (trace (snd (run (discoverSpec host d configValues envs)))) = [].
Proof.
  intros Hyaml.
  assert (Hrun : run (discoverSpec host d configValues envs)
                 = (Returns {| deployables := deployables b;
                               environmentVariables := envs |},
                    after [EvDetectFromYaml (sourceDir d) (projectId d)
                             (runtime d)])).
  { unfold discoverSpec, detectFromYaml. js_unfold. rewrite Hyaml.
    reflexivity. }
  rewrite Hrun. repeat split; reflexivity.
Qed.

(** The dynamic path up to the probe, in one equation: what remains is the
    [finally] block and the assignment of [envs]. *)
Lemma discoverSpec_dynamic (p a : Z) :
  yaml_ = Returns None ->
  portfinder_getPort host 0 = Returns p ->
  portfinder_getPort host 1 = Returns a ->
  run (discoverSpec host d configValues envs)
  = bind (try_finally (call probe_) (stop host a))
      (fun found => set_environmentVariables found envs)
      (probed host d p a envs).
Proof.
  intros Hyaml Hp Ha.
  unfold discoverSpec, detectFromYaml, getPort, serve, detectFromPort.
  js_unfold. rewrite Hyaml. cbn [log trace ports_requested child_killed start].
  rewrite Hp. cbn [log trace ports_requested child_killed].
  rewrite Ha. reflexivity.
Qed.

(** C3, as amended: on the dynamic path, once the probe has ended (with a
    backend, with nothing, or by throwing) the stop handle is run from the
    world the probe left, and [discoverSpec] ends in the world the handle
    leaves: it stays pending while the handle does, and when the handle
    returns it ends as the probe did, so that an error thrown by the probe
    is thrown on unchanged; when the handle throws, that error is what
    [discoverSpec] throws. *)
Theorem discoverSpec_stops_server_before_settling
    (p a : Z) (r : Outcome unit) (w' : World) :
  yaml_ = Returns None ->
  portfinder_getPort host 0 = Returns p ->
  portfinder_getPort host 1 = Returns a ->
  probe_ <> Pending ->
  stop host a (probed host d p a envs) = (r, w') ->
  snd (run (discoverSpec host d configValues envs)) = w' /\
  (r = Pending ->
   fst (run (discoverSpec host d configValues envs)) = Pending) /\
  (r = Returns tt ->
   fst (run (discoverSpec host d configValues envs))
   = discovered_outcome probe_ envs) /\
  (forall e', r = Throws e' ->
   fst (run (discoverSpec host d configValues envs)) = Throws e').
Proof.
  intros Hyaml Hp Ha Hsettled Hstop.
  rewrite (discoverSpec_dynamic p a Hyaml Hp Ha). js_unfold. rewrite Hstop.
  destruct probe_ as [[b|]|e|]; [| | |congruence];
    destruct r as [[]|e'|]; simpl; repeat split; congruence.
Qed.

(** C7: on the dynamic path the one probe that is sent goes to port 8081,
    whatever port [p] was handed out, while the child is started with
    PORT set to [p]. *)
Theorem probe_targets_fixed_port (p a : Z) :
  yaml_ = Returns None ->
  portfinder_getPort host 0 = Returns p ->
  portfinder_getPort host 1 = Returns a ->
  continues_without_probe (trace (probed host d p a envs))
    (trace (snd (run (discoverSpec host d configValues envs)))) /\
  filter (fun ev => is_probe ev = true)
    (trace (snd (run (discoverSpec host d configValues envs))))
  = [EvDetectFromPort 8081 (projectId d) (runtime d)] /\
  child_environment (serve_env host p a envs) !! "PORT"
  = Some (Number_toString p).
Proof.
  intros Hyaml Hp Ha.
  assert (Hcont : continues_without_probe (trace (probed host d p a envs))
            (trace (snd (run (discoverSpec host d configValues envs))))).
  { rewrite (discoverSpec_dynamic p a Hyaml Hp Ha). js_unfold.
    pose proof (stop_trace host a (probed host d p a envs)) as Hstop.
    destruct (stop host a (probed host d p a envs)) as [r w'].
    cbn [snd] in Hstop.
    destruct probe_ as [[b|]|e|]; [| | |apply continues_refl];
      destruct r as [[]|e'|]; exact Hstop. }
  split; [exact Hcont|]. split; [|apply serve_env_ports].
  destruct Hcont as (evs & -> & Hall).
  rewrite filter_app, (no_probe_filtered evs Hall). reflexivity.
Qed.

End DiscoverSpec.

Lemma discoverSpec_environmentVariables_witness :
  environmentVariables Scenario.hello_backend <> Scenario.user_envs /\
  exists b w,
    run (discoverSpec Scenario.host_dynamic Scenario.fn_delegate ∅
           Scenario.user_envs)
    = (Returns b, w) /\
    environmentVariables b = Scenario.user_envs.
Proof.
  split; [vm_compute; discriminate|].
  eexists. eexists. split; [vm_compute; reflexivity|].
  apply (discoverSpec_environmentVariables Scenario.host_dynamic
           Scenario.fn_delegate ∅ Scenario.user_envs start
           (snd (run (discoverSpec Scenario.host_dynamic Scenario.fn_delegate
                        ∅ Scenario.user_envs)))).
  vm_compute. reflexivity.
Defined.

Lemma static_spec_skips_dynamic_discovery_witness :
  run (discoverSpec Scenario.host_static Scenario.fn_delegate ∅
         Scenario.user_envs)
  = (Returns {| deployables := ["hello"];
                environmentVariables := Scenario.user_envs |},
     after [EvDetectFromYaml "/work/functions" "demo-project" "go113"]).
Proof.
  apply (proj1 (static_spec_skips_dynamic_discovery Scenario.host_static
                  Scenario.fn_delegate ∅ Scenario.user_envs
                  Scenario.hello_backend eq_refl)).
Defined.

Lemma discoverSpec_stops_server_before_settling_witness :
  fst (run (discoverSpec Scenario.host_probe_fails Scenario.fn_delegate ∅
              Scenario.user_envs))
  = Throws (Error "probe failed") /\
  snd (run (discoverSpec Scenario.host_probe_fails Scenario.fn_delegate ∅
              Scenario.user_envs))
  = snd (stop Scenario.host_probe_fails 5001
           (probed Scenario.host_probe_fails Scenario.fn_delegate 5000 5001
              Scenario.user_envs)).
Proof.
  assert (Hstop :
    stop Scenario.host_probe_fails 5001
      (probed Scenario.host_probe_fails Scenario.fn_delegate 5000 5001
         Scenario.user_envs)
    = (Returns tt,
       snd (stop Scenario.host_probe_fails 5001
              (probed Scenario.host_probe_fails Scenario.fn_delegate 5000 5001
                 Scenario.user_envs))))
    by (vm_compute; reflexivity).
  assert (Hprobe :
    discovery_detectFromPort Scenario.host_probe_fails 8081
      (projectId Scenario.fn_delegate) (runtime Scenario.fn_delegate)
    <> Pending) by discriminate.
  pose proof (discoverSpec_stops_server_before_settling
                Scenario.host_probe_fails Scenario.fn_delegate ∅
                Scenario.user_envs 5000 5001 (Returns tt) _
                eq_refl eq_refl eq_refl Hprobe Hstop) as (Hw & _ & Hr & _).
  split; [exact (Hr eq_refl) | exact Hw].
Defined.

(** C3, as stated, fails: the probe throws, the stop handle is run and
    rejects because the child reports an error, and [discoverSpec] throws
    the handle's error, not the probe's. *)
Lemma discoverSpec_probe_error_replaced :
  discovery_detectFromPort Scenario.host_probe_fails_child_errors 8081
    "demo-project" "go113"
  = Throws (Error "probe failed") /\
  fst (run (discoverSpec Scenario.host_probe_fails_child_errors
              Scenario.fn_delegate ∅ Scenario.user_envs))
  = Throws (Error "kill EPERM") /\
  fst (run (discoverSpec Scenario.host_probe_fails_child_errors
              Scenario.fn_delegate ∅ Scenario.user_envs))
  <> Throws (Error "probe failed").
Proof.
  split; [reflexivity|].
  split; [vm_compute; reflexivity | vm_compute; discriminate].
Qed.

Lemma probe_targets_fixed_port_witness :
  portfinder_getPort Scenario.host_dynamic 0 = Returns 5000 /\
  filter (fun ev => is_probe ev = true)
    (trace (snd (run (discoverSpec Scenario.host_dynamic Scenario.fn_delegate
                        ∅ Scenario.user_envs))))
  = [EvDetectFromPort 8081 "demo-project" "go113"] /\
  child_environment
    (serve_env Scenario.host_dynamic 5000 5001 Scenario.user_envs) !! "PORT"
  = Some "5000".
Proof.
  split; [reflexivity|].
  apply (proj2 (probe_targets_fixed_port Scenario.host_dynamic
                  Scenario.fn_delegate ∅ Scenario.user_envs 5000 5001
                  eq_refl eq_refl eq_refl)).
Defined.

(** The quit request refused during discovery: the probe had found the
    backend, and [discoverSpec] throws the request's error. *)
Example discoverSpec_quit_refused :
  fst (run (discoverSpec Scenario.host_quit_refused Scenario.fn_delegate ∅
              Scenario.user_envs))
  = Throws Scenario.ECONNREFUSED.
Proof. vm_compute. reflexivity. Qed.

(** * Further properties of the code *)

(** ** [tryCreateDelegate], beyond the claims *)

Section TryCreateDelegateMore.

Variable host : Host.
Variable options : Options.

Abbreviation dir_ := (config_path options (config_functions_source options)).
Abbreviation go_mod_ := (path_join host [dir_; "go.mod"]).

Lemma table_entry (v : string) (r : Runtime) :
  get VERSION_TO_RUNTIME v = Some r -> v = "1.13" /\ r = "go113".
Proof.
  unfold VERSION_TO_RUNTIME. cbn [get].
  destruct (String.eqb_spec "1.13" v) as [<-|]; [|discriminate].
  intros H. inversion H. split; reflexivity.
Qed.

Lemma read_go_mod_cases :
  read_go_mod host go_mod_ start
  = match fs_readFile host go_mod_ with
    | Returns text =>
        match modules_parseModule host text with
        | Returns m => (Returns (Some m), after [EvReadFile go_mod_])
        | Throws _ =>
            (Returns None,
             after [EvReadFile go_mod_;
                    EvLogDebug
                      "Customer code is not Golang code (or they aren't using modules)"])
        | Pending => (Pending, after [EvReadFile go_mod_])
        end
    | Throws _ =>
        (Returns None,
         after [EvReadFile go_mod_;
                EvLogDebug
                  "Customer code is not Golang code (or they aren't using modules)"])
    | Pending => (Pending, after [EvReadFile go_mod_])
    end.
Proof.
  unfold read_go_mod, readFile, parseModule, logger_debug. js_unfold.
  destruct (fs_readFile host go_mod_) as [text|e|]; try reflexivity.
  destruct (modules_parseModule host text); reflexivity.
Qed.

(** X1: without a configured runtime, a module whose version is a key of
    [VERSION_TO_RUNTIME] gets a delegate of the runtime the table holds for
    it, having only read go.mod. *)
Theorem supported_version_resolves_by_table
    (text : string) (m : modules_Module) (v : string) (r : Runtime) :
  fs_readFile host go_mod_ = Returns text ->
  modules_parseModule host text = Returns m ->
  version m = Some v ->
  get VERSION_TO_RUNTIME v = Some r ->
  truthy (config_functions_runtime options) = false ->
  run (tryCreateDelegate host options)
  = (Returns (Some (new_Delegate (getProjectId options) dir_ r m)),
     after [EvReadFile go_mod_]).
Proof.
  intros Hread Hparse Hv Hget Hcfg.
  destruct (table_entry v r Hget) as [-> ->].
  unfold tryCreateDelegate, run. unfold bind at 1.
  rewrite (read_go_mod_ok host options text m Hread Hparse), Hcfg.
  unfold detect_runtime, lookup. rewrite Hv. reflexivity.
Qed.

(** X2: without a configured runtime, a module whose version is missing or
    empty makes [tryCreateDelegate] throw "Could not detect Golang version
    from go.mod"; the table is not what decides. *)
Theorem missing_version_is_configuration_error
    (text : string) (m : modules_Module) :
  fs_readFile host go_mod_ = Returns text ->
  modules_parseModule host text = Returns m ->
  truthy (version m) = false ->
  truthy (config_functions_runtime options) = false ->
  run (tryCreateDelegate host options)
  = (Throws (FirebaseError "Could not detect Golang version from go.mod" []),
     after [EvReadFile go_mod_]).
Proof.
  intros Hread Hparse Hv Hcfg.
  unfold tryCreateDelegate, run. unfold bind at 1.
  rewrite (read_go_mod_ok host options text m Hread Hparse), Hcfg.
  unfold detect_runtime. rewrite Hv. reflexivity.
Qed.

(** What [detect_runtime] and the choice of the runtime can end in: never
    pending, and never touching the world. *)
Lemma chosen_runtime (m : modules_Module) (w : World) :
  exists r : Outcome RuntimeValue,
    (if negb (truthy (config_functions_runtime options))
     then detect_runtime m
     else ret (Named (default "" (config_functions_runtime options)))) w
    = (r, w) /\
    r <> Pending /\
    (forall rt, r = Returns rt ->
       if truthy (config_functions_runtime options)
       then exists id, config_functions_runtime options = Some id /\
                       rt = Named id
       else truthy (version m) = true /\
            lookup VERSION_TO_RUNTIME (default "" (version m)) = Some rt).
Proof.
  destruct (truthy (config_functions_runtime options)) eqn:Hcfg; cbn [negb].
  - eexists. split; [reflexivity|]. split; [discriminate|].
    intros rt Hrt. inversion Hrt.
    destruct (config_functions_runtime options) as [id|]; [|discriminate].
    exists id. split; reflexivity.
  - unfold detect_runtime.
    destruct (truthy (version m)); cbn [negb].
    + destruct (lookup VERSION_TO_RUNTIME (default "" (version m)))
        as [value|] eqn:Hlook.
      * destruct (holds (Some value)); cbn [negb].
        -- eexists. split; [reflexivity|]. split; [discriminate|].
           intros rt Hrt. inversion Hrt. split; reflexivity.
        -- eexists. split; [reflexivity|]. split; discriminate.
      * eexists. split; [reflexivity|]. split; discriminate.
    + eexists. split; [reflexivity|]. split; discriminate.
Qed.

(** X4: [tryCreateDelegate] resolves to [undefined] exactly when go.mod
    could not be read or could not be parsed; a module that parses never
    ends in [undefined]. *)
Theorem tryCreateDelegate_undefined_iff :
  fst (run (tryCreateDelegate host options)) = Returns None <->
  (exists e, fs_readFile host go_mod_ = Throws e) \/
  (exists text e, fs_readFile host go_mod_ = Returns text /\
                  modules_parseModule host text = Throws e).
Proof.
  remember (run (tryCreateDelegate host options)) as R eqn:HR.
  unfold tryCreateDelegate, run in HR. unfold bind at 1 in HR.
  rewrite read_go_mod_cases in HR.
  destruct (fs_readFile host go_mod_) as [text|e|].
  - destruct (modules_parseModule host text) as [m|e|] eqn:Hparse.
    + unfold bind in HR.
      destruct (chosen_runtime m (after [EvReadFile go_mod_]))
        as (r & Hr & _ & _).
      rewrite Hr in HR. subst R. split.
      * destruct r; discriminate.
      * intros [(e & He) | (text' & e & Ht & He)]; [discriminate|].
        inversion Ht; subst. congruence.
    + subst R. split; [|reflexivity]. intros _. right. exists text, e.
      split; [reflexivity|assumption].
    + subst R. split; [discriminate|].
      intros [(e & He) | (text' & e & Ht & He)]; [discriminate|].
      inversion Ht; subst. congruence.
  - subst R. split; [|reflexivity]. intros _. left. exists e. reflexivity.
  - subst R. split; [discriminate|].
    intros [(e & He) | (text' & e & Ht & He)]; discriminate.
Qed.

(** X5: a delegate that [tryCreateDelegate] resolves to is named "golang",
    belongs to the project and source directory of the options and holds
    the module parsed from go.mod.  Its runtime is the configured one when
    one is set; otherwise the module declares a version and the runtime
    is what the table answers for it: its entry when the version is a key
    of [VERSION_TO_RUNTIME], and else the property the table inherits
    under that name. *)
Theorem tryCreateDelegate_delegate_fields (d : Delegate) :
  fst (run (tryCreateDelegate host options)) = Returns (Some d) ->
  name d = "golang" /\
  projectId d = getProjectId options /\
  sourceDir d = dir_ /\
  (exists text, fs_readFile host go_mod_ = Returns text /\
                modules_parseModule host text = Returns (module_ d)) /\
  (if truthy (config_functions_runtime options)
   then exists id, config_functions_runtime options = Some id /\
                   runtime d = Named id
   else exists v,
     version (module_ d) = Some v /\ v <> "" /\
     ((exists r, get VERSION_TO_RUNTIME v = Some r /\ runtime d = Named r) \/
      (get VERSION_TO_RUNTIME v = None /\ In v Object_prototype /\
       runtime d = Inherited v))).
Proof.
  remember (run (tryCreateDelegate host options)) as R eqn:HR.
  unfold tryCreateDelegate, run in HR. unfold bind at 1 in HR.
  rewrite read_go_mod_cases in HR.
  destruct (fs_readFile host go_mod_) as [text|e|];
    [|subst R; discriminate|subst R; discriminate].
  destruct (modules_parseModule host text) as [m|e|] eqn:Hparse;
    [|subst R; discriminate|subst R; discriminate].
  unfold bind in HR.
  destruct (chosen_runtime m (after [EvReadFile go_mod_]))
    as (r & Hr & _ & Hrt).
  rewrite Hr in HR. subst R.
  destruct r as [rt|e|]; [|discriminate|discriminate].
  cbn [fst]. intros H. inversion H; subst.
  cbn [name projectId sourceDir module_ runtime new_Delegate].
  repeat split; try reflexivity.
  - exists text. split; [reflexivity|assumption].
  - specialize (Hrt rt eq_refl).
    destruct (truthy (config_functions_runtime options)); [exact Hrt|].
    destruct Hrt as [Hv Hlook].
    destruct (version m) as [v|]; [|discriminate Hv].
    exists v. split; [reflexivity|]. split.
    + intros ->. discriminate Hv.
    + change (default "" (Some v)) with v in Hlook. unfold lookup in Hlook.
      destruct (get VERSION_TO_RUNTIME v) as [r|].
      * left. exists r. inversion Hlook. split; reflexivity.
      * right. unfold inherited in Hlook.
        destruct (existsb (String.eqb v) Object_prototype) eqn:Hin;
          [|discriminate].
        inversion Hlook. repeat split.
        apply existsb_exists in Hin as (k & Hk & Heq).
        apply String.eqb_eq in Heq. subst k. exact Hk.
Qed.

End TryCreateDelegateMore.

Lemma supported_version_resolves_by_table_witness :
  run (tryCreateDelegate (Scenario.host_go_mod (Some "1.13"))
         (Scenario.options_with None))
  = (Returns (Some Scenario.fn_delegate),
     after [EvReadFile "/work/functions/go.mod"]).
Proof.
  apply (supported_version_resolves_by_table
           (Scenario.host_go_mod (Some "1.13")) (Scenario.options_with None)
           "module example.com/fn" (Scenario.fn_module (Some "1.13"))
           "1.13" "go113" eq_refl eq_refl eq_refl eq_refl eq_refl).
Defined.

Lemma missing_version_is_configuration_error_witness :
  run (tryCreateDelegate (Scenario.host_go_mod None)
         (Scenario.options_with None))
  = (Throws (FirebaseError "Could not detect Golang version from go.mod" []),
     after [EvReadFile "/work/functions/go.mod"]) /\
  run (tryCreateDelegate (Scenario.host_go_mod (Some ""))
         (Scenario.options_with (Some "")))
  = (Throws (FirebaseError "Could not detect Golang version from go.mod" []),
     after [EvReadFile "/work/functions/go.mod"]).
Proof.
  split.
  - apply (missing_version_is_configuration_error
             (Scenario.host_go_mod None) (Scenario.options_with None)
             "module example.com/fn" (Scenario.fn_module None)
             eq_refl eq_refl eq_refl eq_refl).
  - apply (missing_version_is_configuration_error
             (Scenario.host_go_mod (Some ""))
             (Scenario.options_with (Some ""))
             "module example.com/fn" (Scenario.fn_module (Some ""))
             eq_refl eq_refl eq_refl eq_refl).
Defined.

Lemma tryCreateDelegate_delegate_fields_witness :
  fst (run (tryCreateDelegate (Scenario.host_go_mod (Some "9.99"))
              (Scenario.options_with (Some "nodejs14"))))
  = Returns (Some (new_Delegate "demo-project" "/work/functions" "nodejs14"
                     (Scenario.fn_module (Some "9.99")))) /\
  runtime (new_Delegate "demo-project" "/work/functions" "nodejs14"
             (Scenario.fn_module (Some "9.99")))
  = "nodejs14".
Proof.
  split; [vm_compute; reflexivity|].
  pose proof (tryCreateDelegate_delegate_fields
                (Scenario.host_go_mod (Some "9.99"))
                (Scenario.options_with (Some "nodejs14"))
                (new_Delegate "demo-project" "/work/functions" "nodejs14"
                   (Scenario.fn_module (Some "9.99")))
                eq_refl) as (_ & _ & _ & _ & Hrt).
  cbn in Hrt. inversion Hrt. reflexivity.
Defined.

(** ** [Delegate.build], beyond the claim *)

Section BuildMore.

Variable host : Host.
Variable d : Delegate.

Abbreviation autogen_dir_ := (path_join host [sourceDir d; "autogen"]).
Abbreviation main_file_ :=
  (path_join host [sourceDir d; "autogen"; "main.go"]).
Abbreviation deps_ :=
  (spawn_sync host "go" ["run"; FUNCTIONS_CODEGEN; module (module_ d)]
     (sourceDir d)).
Abbreviation ran_codegen_ :=
  [EvMkdir autogen_dir_;
   EvSpawnSync "go" ["run"; FUNCTIONS_CODEGEN; module (module_ d)]
     (sourceDir d)].

Abbreviation codegen_error_ :=
  (match deps_ with
   | Ran _ _ err => FirebaseError "Failed to run codegen" [Error err]
   | NotStarted _ =>
       TypeError "Cannot read properties of null (reading 'toString')"
   end).

(** [build], case by case. *)
Lemma build_cases :
  run (build host d)
  = let rest :=
      if status_not_zero (status deps_) then
        (Throws codegen_error_, after ran_codegen_)
      else
        (fs_writeFile host main_file_ (stdout deps_),
         after (ran_codegen_ ++ [EvWriteFile main_file_ (stdout deps_)])) in
    match fs_mkdir host autogen_dir_ with
    | Returns _ => rest
    | Throws err =>
        if negb (includes "EEXIST" (message err)) then
          (Throws (FirebaseError "Failed to create codegen directory" [err]),
           after [EvMkdir autogen_dir_])
        else rest
    | Pending => (Pending, after [EvMkdir autogen_dir_])
    end.
Proof.
  unfold build, mkdir, spawn_sync_in, writeFile. js_unfold.
  destruct (fs_mkdir host autogen_dir_) as [[]|err|]; cbn [log trace start app].
  - destruct (status_not_zero (status deps_)); [destruct deps_|]; reflexivity.
  - destruct (includes "EEXIST" (message err)); cbn [negb];
      [destruct (status_not_zero (status deps_)); [destruct deps_|]|];
      reflexivity.
  - reflexivity.
Qed.

(** X6: when the autogen directory cannot be made, for a reason other
    than its being there already, [build] throws "Failed to create codegen
    directory" with the original error as its child, and stops: the
    codegen command is not run and nothing is written. *)
Theorem build_mkdir_failure_is_fatal (err : JsError) :
  fs_mkdir host autogen_dir_ = Throws err ->
  includes "EEXIST" (message err) = false ->
  run (build host d)
  = (Throws (FirebaseError "Failed to create codegen directory" [err]),
     after [EvMkdir autogen_dir_]).
Proof.
  intros Hmk Hmsg. rewrite build_cases. cbv zeta. rewrite Hmk, Hmsg.
  reflexivity.
Qed.

(** X7: [build] writes at most one file, and only after the codegen
    command exited with status 0: the file is autogen/main.go under the
    source directory and its content is the command's stdout. *)
Theorem build_writes_only_after_clean_exit (path data : string) :
  In (EvWriteFile path data) (trace (snd (run (build host d)))) ->
  autogen_ready host d /\
  status deps_ = Some 0 /\
  path = main_file_ /\
  data = stdout deps_ /\
  filter (fun ev => is_write ev = true) (trace (snd (run (build host d))))
  = [EvWriteFile main_file_ (stdout deps_)].
Proof.
  rewrite build_cases. cbv zeta.
  assert (Hrest :
    In (EvWriteFile path data)
      (trace (snd (if status_not_zero (status deps_) then
                     (Throws codegen_error_, after ran_codegen_)
                   else
                     (fs_writeFile host main_file_ (stdout deps_),
                      after (ran_codegen_ ++
                             [EvWriteFile main_file_ (stdout deps_)]))))) ->
    status deps_ = Some 0 /\ path = main_file_ /\ data = stdout deps_ /\
    filter (fun ev => is_write ev = true)
      (trace (snd (if status_not_zero (status deps_) then
                     (Throws codegen_error_, after ran_codegen_)
                   else
                     (fs_writeFile host main_file_ (stdout deps_),
                      after (ran_codegen_ ++
                             [EvWriteFile main_file_ (stdout deps_)])))))
    = [EvWriteFile main_file_ (stdout deps_)]).
  { destruct (status deps_) as [n|] eqn:Hst; cbn [status_not_zero].
    - destruct (Z.eqb_spec n 0) as [->|Hn]; cbn [negb snd trace after app].
      + intros [H|[H|[H|[]]]]; try discriminate.
        inversion H. repeat split; reflexivity.
      + intros [H|[H|[]]]; discriminate.
    - cbn [snd trace after]. intros [H|[H|[]]]; discriminate. }
  destruct (fs_mkdir host autogen_dir_) as [[]|err|] eqn:Hmk.
  - intros H. split; [left; exact Hmk | exact (Hrest H)].
  - destruct (includes "EEXIST" (message err)) eqn:Hmsg; cbn [negb].
    + intros H. split; [|exact (Hrest H)].
      right. exists err. split; assumption.
    + cbn [snd trace after]. intros [H|[]]. discriminate.
  - cbn [snd trace after]. intros [H|[]]. discriminate.
Qed.

(** X8: [build] resolves exactly when the autogen directory is in place,
    the codegen command exited with status 0 and the write of main.go
    succeeded. *)
Theorem build_succeeds_iff :
  fst (run (build host d)) = Returns tt <->
  autogen_ready host d /\
  status deps_ = Some 0 /\
  fs_writeFile host main_file_ (stdout deps_) = Returns tt.
Proof.
  rewrite build_cases. cbv zeta.
  assert (Hrest :
    fst (if status_not_zero (status deps_) then
           (Throws codegen_error_, after ran_codegen_)
         else
           (fs_writeFile host main_file_ (stdout deps_),
            after (ran_codegen_ ++ [EvWriteFile main_file_ (stdout deps_)])))
    = Returns tt <->
    status deps_ = Some 0 /\
    fs_writeFile host main_file_ (stdout deps_) = Returns tt).
  { destruct (status deps_) as [n|]; cbn [status_not_zero].
    - destruct (Z.eqb_spec n 0) as [->|Hn]; cbn [negb fst].
      + split; [intros H; split; [reflexivity|exact H] | intros [_ H]; exact H].
      + split; [discriminate|]. intros [H _]. congruence.
    - cbn [fst]. split; [discriminate|]. intros [H _]. discriminate. }
  unfold autogen_ready.
  destruct (fs_mkdir host autogen_dir_) as [[]|err|].
  - rewrite Hrest. split; [intros H; split; [left; reflexivity|exact H]|].
    intros [_ H]. exact H.
  - destruct (includes "EEXIST" (message err)) eqn:Hmsg; cbn [negb].
    + rewrite Hrest. split.
      * intros H. split; [|exact H]. right. exists err. split; [reflexivity|assumption].
      * intros [_ H]. exact H.
    + cbn [fst]. split; [discriminate|].
      intros [[H|(err' & H & Hmsg')] _]; [discriminate|].
      inversion H; subst. congruence.
  - cbn [fst]. split; [discriminate|].
    intros [[H|(err' & H & _)] _]; discriminate.
Qed.

(** X9: a codegen command without an exit status counts as failed and
    nothing is written.  When it ran and a signal ended it, [build] throws
    "Failed to run codegen" with the captured stderr; when it could not be
    started there is no stderr to read, and [build] throws the [TypeError]
    of reading it instead. *)
Theorem build_null_status_fails :
  autogen_ready host d ->
  status deps_ = None ->
  snd (run (build host d)) = after ran_codegen_ /\
  (forall out err,
     deps_ = Ran None out err ->
     fst (run (build host d))
     = Throws (FirebaseError "Failed to run codegen" [Error err])) /\
  (forall e,
     deps_ = NotStarted e ->
     exists msg, fst (run (build host d)) = Throws (TypeError msg)).
Proof.
  intros Hdir Hst.
  assert (Hrun : run (build host d) = (Throws codegen_error_, after ran_codegen_)).
  { rewrite build_cases. cbv zeta. rewrite Hst. cbn [status_not_zero].
    destruct Hdir as [H | (err & H & Hmsg)]; rewrite H; [reflexivity|].
    rewrite Hmsg. reflexivity. }
  rewrite Hrun. cbn [fst snd]. split; [reflexivity|]. split.
  - intros out err ->. reflexivity.
  - intros e ->. eexists. reflexivity.
Qed.

End BuildMore.

Lemma build_mkdir_failure_is_fatal_witness :
  run (build Vary.host_mkdir_denied Scenario.fn_delegate)
  = (Throws (FirebaseError "Failed to create codegen directory"
               [Error "EACCES: permission denied, mkdir 'autogen'"]),
     after [EvMkdir "/work/functions/autogen"]).
Proof.
  apply (build_mkdir_failure_is_fatal Vary.host_mkdir_denied
           Scenario.fn_delegate
           (Error "EACCES: permission denied, mkdir 'autogen'")
           eq_refl eq_refl).
Defined.

Lemma build_writes_only_after_clean_exit_witness :
  status (spawn_sync (Scenario.host_codegen Scenario.codegen_ok) "go"
            ["run"; FUNCTIONS_CODEGEN; "example.com/fn"] "/work/functions")
  = Some 0.
Proof.
  apply (build_writes_only_after_clean_exit
           (Scenario.host_codegen Scenario.codegen_ok) Scenario.fn_delegate
           "/work/functions/autogen/main.go" "package main").
  vm_compute. right. right. left. reflexivity.
Defined.

Lemma build_null_status_fails_witness :
  fst (run (build (Scenario.host_codegen Vary.codegen_signalled)
              Scenario.fn_delegate))
  = Throws (FirebaseError "Failed to run codegen" [Error "signal: killed"]) /\
  (exists msg,
     fst (run (build (Scenario.host_codegen Vary.codegen_not_started)
                 Scenario.fn_delegate))
     = Throws (TypeError msg)) /\
  snd (run (build (Scenario.host_codegen Vary.codegen_not_started)
              Scenario.fn_delegate))
  = after [EvMkdir "/work/functions/autogen";
           EvSpawnSync "go"
             ["run"; "github.com/inlined/go-functions/support/codegen";
              "example.com/fn"]
             "/work/functions"].
Proof.
  assert (Hdir : forall c,
            autogen_ready (Scenario.host_codegen c) Scenario.fn_delegate).
  { intros c. right.
    exists (Error "EEXIST: file already exists, mkdir 'autogen'").
    split; reflexivity. }
  pose proof (build_null_status_fails
                (Scenario.host_codegen Vary.codegen_signalled)
                Scenario.fn_delegate (Hdir _) eq_refl) as (_ & Hran & _).
  pose proof (build_null_status_fails
                (Scenario.host_codegen Vary.codegen_not_started)
                Scenario.fn_delegate (Hdir _) eq_refl) as (Hw & _ & Hnot).
  split; [exact (Hran "" "signal: killed" eq_refl)|].
  split; [exact (Hnot (Error "spawnSync go ENOENT") eq_refl) | exact Hw].
Defined.

(** ** [Delegate.serve], beyond the claim *)

Section ServeMore.

Variable host : Host.
Variables port adminPort : Z.
Variable envs : gmap string string.

(** X10: the names in the child's environment are PORT, ADMIN_PORT, every
    inherited name, and every user-supplied name other than PATH and
    GOPATH: a PATH or GOPATH that only the user supplies does not reach
    the child. *)
Theorem serve_env_names (k : string) :
  k ∈ dom (child_environment (serve_env host port adminPort envs)) <->
  k = "PORT" \/ k = "ADMIN_PORT" \/ k ∈ dom (process_env host) \/
  (k ∈ dom envs /\ k <> "PATH" /\ k <> "GOPATH").
Proof.
  rewrite !elem_of_dom.
  destruct (decide (k = "PORT")) as [->|Hport].
  { rewrite (proj1 (serve_env_ports host port adminPort envs)).
    split; [intros _; left; reflexivity | intros _; eexists; reflexivity]. }
  destruct (decide (k = "ADMIN_PORT")) as [->|Hadmin].
  { rewrite (proj2 (serve_env_ports host port adminPort envs)).
    split; [intros _; right; left; reflexivity | intros _; eexists; reflexivity]. }
  destruct (decide (k = "PATH")) as [->|Hpath].
  { rewrite (proj1 (serve_env_toolchain host port adminPort envs)).
    split; [intros H; right; right; left; exact H|].
    intros [H|[H|[H|(_ & H & _)]]]; [discriminate|discriminate|exact H|congruence]. }
  destruct (decide (k = "GOPATH")) as [->|Hgo].
  { rewrite (proj2 (serve_env_toolchain host port adminPort envs)).
    split; [intros H; right; right; left; exact H|].
    intros [H|[H|[H|(_ & _ & H)]]]; [discriminate|discriminate|exact H|congruence]. }
  rewrite (serve_env_other host port adminPort envs k Hgo Hport Hadmin Hpath).
  destruct (process_env host !! k) as [v|] eqn:Hk.
  - split; [intros _; right; right; left; eexists; reflexivity|].
    intros _. eexists; reflexivity.
  - split.
    + intros H. right. right. right. repeat split; assumption.
    + intros [H|[H|[[v H]|(H & _)]]]; [congruence|congruence|discriminate|exact H].
Qed.

End ServeMore.

(** ** The stop handle, beyond the claim *)

Section StopMore.

Variable host : Host.
Variable adminPort : Z.

Lemma added_app (w : World) (t : list Event) (p : nat) (k : bool) :
  added w {| trace := trace w ++ t; ports_requested := p; child_killed := k |}
  = t.
Proof. unfold added. cbn [trace]. apply drop_app_length. Qed.

(** One run of the handle, in full. *)
Lemma stop_run (w : World) :
  stop host adminPort w
  = (match fetch host (quit_url adminPort) with
     | Returns _ =>
         match child_fate host with
         | FailsWith e => Throws e
         | ExitsAfter ms =>
             if ms <? GRACE_MS then Returns tt
             else if child_killed w then Pending else Returns tt
         | KeepsRunning => if child_killed w then Pending else Returns tt
         | ExitedBefore => Pending
         end
     | Throws e => Throws e
     | Pending => Pending
     end,
     {| trace := trace w ++ stop_events host adminPort (child_killed w);
        ports_requested := ports_requested w;
        child_killed :=
          match fetch host (quit_url adminPort), child_fate host with
          | Returns _, ExitsAfter ms =>
              if ms <? GRACE_MS then child_killed w else true
          | Returns _, KeepsRunning => true
          | _, _ => child_killed w
          end |}).
Proof.
  unfold stop, await_p, timeout_fires, stop_events, settle_events, kill_events.
  js_unfold. unfold log. cbn [trace ports_requested child_killed].
  destruct w as [t p k]. cbn [trace ports_requested child_killed].
  destruct (fetch host (quit_url adminPort)) as [[]| |];
    [destruct (child_fate host) as [ms| |e|];
       [destruct (ms <? GRACE_MS)| | |]| |];
    try destruct k; cbn [negb trace ports_requested child_killed];
    rewrite <- ?app_assoc; reflexivity.
Qed.

(** X11: when the quit request returned and the child reports an error,
    the handle rejects with the child's error; the timer was set, and no
    signal was sent. *)
Theorem stop_rejects_on_child_error (w : World) (e : JsError) :
  fetch host (quit_url adminPort) = Returns tt ->
  child_fate host = FailsWith e ->
  fst (stop host adminPort w) = Throws e /\
  added w (snd (stop host adminPort w))
  = [EvOnce "exit"; EvOnce "error"; EvFetch (quit_url adminPort);
     EvSetTimeout GRACE_MS; EvChildError e] /\
  child_killed (snd (stop host adminPort w)) = child_killed w.
Proof.
  intros Hq Hfate. rewrite stop_run. cbn [fst snd].
  rewrite added_app.
  unfold stop_events, settle_events. rewrite Hq, Hfate.
  repeat split; reflexivity.
Qed.

(** X12: a child that exits within the grace period is not signalled: the
    handle resolves on the child's exit and the [killed] flag stays as it
    was. *)
Theorem stop_spares_child_that_exits_in_time (w : World) (ms : Z) :
  fetch host (quit_url adminPort) = Returns tt ->
  child_fate host = ExitsAfter ms ->
  ms < GRACE_MS ->
  fst (stop host adminPort w) = Returns tt /\
  added w (snd (stop host adminPort w))
  = [EvOnce "exit"; EvOnce "error"; EvFetch (quit_url adminPort);
     EvSetTimeout GRACE_MS; EvChildExit] /\
  child_killed (snd (stop host adminPort w)) = child_killed w.
Proof.
  intros Hq Hfate Hms. rewrite stop_run. cbn [fst snd].
  rewrite added_app.
  unfold stop_events, settle_events. rewrite Hq, Hfate.
  apply Z.ltb_lt in Hms. rewrite Hms. repeat split; reflexivity.
Qed.

(** X13: a signal is sent only as SIGKILL, only after the quit request
    returned and the timer was set, and only to a child whose [killed]
    flag was down; the handle's steps are then exactly: both listeners,
    the request, the timer, the signal, the exit. *)
Theorem stop_signals_only_after_timer (w : World) (signal : string) :
  In (EvKill signal) (added w (snd (stop host adminPort w))) ->
  signal = "SIGKILL" /\
  fetch host (quit_url adminPort) = Returns tt /\
  child_killed w = false /\
  added w (snd (stop host adminPort w))
  = [EvOnce "exit"; EvOnce "error"; EvFetch (quit_url adminPort);
     EvSetTimeout GRACE_MS; EvKill "SIGKILL"; EvChildExit].
Proof.
  rewrite stop_run. cbn [snd]. rewrite added_app.
  unfold stop_events, settle_events, kill_events.
  destruct (fetch host (quit_url adminPort)) as [[]| |];
    [destruct (child_fate host) as [ms| |e|];
       [destruct (ms <? GRACE_MS)| | |]| |];
    try destruct (child_killed w); cbn [app In];
    intros H; repeat (destruct H as [H|H]; try discriminate H);
    try contradiction;
    inversion H; repeat split; reflexivity.
Qed.

(** X14: once the quit request has settled, the handle of a child that
    was not signalled before stays pending in one case only: the request
    returned and the child had exited before the handle was invoked, so
    that no ["exit"] is left to hear.  In every other case it resolves, or
    rejects with the request's or the child's error. *)
Theorem stop_settles (w : World) :
  fetch host (quit_url adminPort) <> Pending ->
  child_killed w = false ->
  (fst (stop host adminPort w) = Pending <->
   fetch host (quit_url adminPort) = Returns tt /\
   child_fate host = ExitedBefore).
Proof.
  intros Hq Hk. rewrite stop_run. cbn [fst]. rewrite Hk.
  destruct (fetch host (quit_url adminPort)) as [[]| |];
    [destruct (child_fate host) as [ms| |e|];
       [destruct (ms <? GRACE_MS)| | |]| |];
    try congruence;
    (split; [try discriminate; intros _; split; reflexivity
            | intros [H1 H2]; try discriminate H1; try discriminate H2;
              reflexivity]).
Qed.

End StopMore.

Lemma stop_rejects_on_child_error_witness :
  fst (stop Vary.host_child_errors 5001 start) = Throws (Error "kill EPERM").
Proof.
  apply (stop_rejects_on_child_error Vary.host_child_errors 5001 start
           (Error "kill EPERM") eq_refl eq_refl).
Defined.

Lemma stop_spares_child_that_exits_in_time_witness :
  added start (snd (stop Scenario.host_dynamic 5001 start))
  = [EvOnce "exit"; EvOnce "error";
     EvFetch "http://localhost:5001/quitquitquit";
     EvSetTimeout 10000; EvChildExit].
Proof.
  apply (stop_spares_child_that_exits_in_time Scenario.host_dynamic 5001
           start 50 eq_refl eq_refl).
  reflexivity.
Defined.

Lemma stop_signals_only_after_timer_witness :
  fetch Scenario.host_unresponsive (quit_url 5001) = Returns tt.
Proof.
  apply (stop_signals_only_after_timer Scenario.host_unresponsive 5001 start
           "SIGKILL").
  vm_compute. do 4 right. left. reflexivity.
Defined.

Lemma stop_settles_witness :
  fst (stop Scenario.host_quit_refused 5001 start) <> Pending /\
  fst (stop Scenario.host_unresponsive 5001 start) <> Pending /\
  fst (stop Vary.host_child_gone 5001 start) = Pending.
Proof.
  split; [|split].
  - intros H.
    apply (stop_settles Scenario.host_quit_refused 5001 start) in H
      as [H _]; discriminate || reflexivity.
  - intros H.
    apply (stop_settles Scenario.host_unresponsive 5001 start) in H
      as [_ H]; discriminate || reflexivity.
  - apply (stop_settles Vary.host_child_gone 5001 start);
      [discriminate | reflexivity | split; reflexivity].
Defined.

(** ** [Delegate.discoverSpec], beyond the claims *)

Section DiscoverSpecMore.

Variable host : Host.
Variable d : Delegate.
Variable configValues : gmap string string.
Variable envs : gmap string string.

Abbreviation from_yaml_ :=
  (discovery_detectFromYaml host (sourceDir d) (projectId d) (runtime d)).
Abbreviation from_port_ :=
  (discovery_detectFromPort host 8081 (projectId d) (runtime d)).
Abbreviation asked_yaml_ :=
  (EvDetectFromYaml (sourceDir d) (projectId d) (runtime d)).

(** X15: an error thrown by the yaml discovery is thrown on by
    [discoverSpec] as it is; dynamic discovery is not tried in its place. *)
Theorem discoverSpec_yaml_error_is_final (e : JsError) :
  from_yaml_ = Throws e ->
  run (discoverSpec host d configValues envs)
  = (Throws e, after [asked_yaml_]).
Proof.
  intros Hyaml. unfold discoverSpec, detectFromYaml. js_unfold.
  rewrite Hyaml. reflexivity.
Qed.

(** X16: when no port can be had, the first or the second, [discoverSpec]
    throws the allocator's error and no child has been started. *)
Theorem discoverSpec_without_ports_starts_nothing (e : JsError) :
  from_yaml_ = Returns None ->
  portfinder_getPort host 0 = Throws e \/
  (exists p, portfinder_getPort host 0 = Returns p /\
             portfinder_getPort host 1 = Throws e) ->
  fst (run (discoverSpec host d configValues envs)) = Throws e /\
  filter (fun ev => is_spawn ev = true)
    (trace (snd (run (discoverSpec host d configValues envs)))) = [].
Proof.
  intros Hyaml Hports.
  unfold discoverSpec, detectFromYaml, getPort. js_unfold.
  rewrite Hyaml. cbn [log trace ports_requested child_killed start].
  destruct Hports as [H0 | (p & H0 & H1)]; rewrite H0;
    cbn [log trace ports_requested child_killed];
    rewrite ?H1; split; reflexivity.
Qed.

(** X17: a dynamic discovery whose probe settles asks for exactly two
    ports, starts exactly one child, and sends exactly one quit request,
    to the second port. *)
Theorem discoverSpec_one_child_one_stop (p a : Z) :
  from_yaml_ = Returns None ->
  portfinder_getPort host 0 = Returns p ->
  portfinder_getPort host 1 = Returns a ->
  from_port_ <> Pending ->
  ports_requested (snd (run (discoverSpec host d configValues envs))) = 2%nat /\
  filter (fun ev => is_spawn ev = true)
    (trace (snd (run (discoverSpec host d configValues envs))))
  = [EvSpawn "go" ["run"; "./autogen"] (serve_env host p a envs)
       (sourceDir d)] /\
  filter (fun ev => is_fetch ev = true)
    (trace (snd (run (discoverSpec host d configValues envs))))
  = [EvFetch (quit_url a)].
Proof.
  intros Hyaml Hp Ha Hprobe.
  assert (Hw : snd (run (discoverSpec host d configValues envs))
               = snd (stop host a (probed host d p a envs))).
  { rewrite (discoverSpec_dynamic host d configValues envs p a Hyaml Hp Ha).
    js_unfold.
    destruct from_port_ as [[b|]|e|]; [| | |congruence];
      destruct (stop host a (probed host d p a envs)) as [[[]|e'|] w'];
      reflexivity. }
  rewrite Hw, stop_run. cbn [snd trace ports_requested probed child_killed].
  split; [reflexivity|].
  rewrite !filter_app.
  unfold stop_events, settle_events, kill_events.
  destruct (fetch host (quit_url a)) as [[]| |];
    [destruct (child_fate host) as [ms| |e|];
       [destruct (ms <? GRACE_MS)| | |]| |];
    split; reflexivity.
Qed.

(** X18: the backend that [discoverSpec] returns has the deployables of
    the backend that was found, by the yaml discovery or else by the
    probe: only [environmentVariables] is replaced. *)
Theorem discoverSpec_keeps_deployables (b : Backend) :
  fst (run (discoverSpec host d configValues envs)) = Returns b ->
  exists found,
    (from_yaml_ = Returns (Some found) \/
     (from_yaml_ = Returns None /\ from_port_ = Returns (Some found))) /\
    deployables b = deployables found.
Proof.
  unfold discoverSpec, detectFromYaml, getPort, serve, detectFromPort.
  js_unfold.
  destruct from_yaml_ as [[found|]|e|];
    cbn [log trace ports_requested child_killed start fst];
    [| |discriminate|discriminate].
  - intros H. inversion H. exists found. split; [left|]; reflexivity.
  - destruct (portfinder_getPort host 0) as [p|e|];
      cbn [log trace ports_requested child_killed fst];
      [|discriminate|discriminate].
    destruct (portfinder_getPort host 1) as [a|e|];
      cbn [log trace ports_requested child_killed fst];
      [|discriminate|discriminate].
    destruct from_port_ as [[found|]|e|];
      cbn [log trace ports_requested child_killed fst];
      try discriminate;
      match goal with
      | |- context [stop host a ?w] =>
          destruct (stop host a w) as [[[]|e'|] w']
      end; cbn [fst set_environmentVariables]; try discriminate.
    intros H. inversion H. exists found. split; [right; split|]; reflexivity.
Qed.

End DiscoverSpecMore.

Lemma discoverSpec_yaml_error_is_final_witness :
  run (discoverSpec Vary.host_yaml_broken Scenario.fn_delegate ∅
         Scenario.user_envs)
  = (Throws (Error "functions.yaml is not valid"),
     after [EvDetectFromYaml "/work/functions" "demo-project" "go113"]).
Proof.
  apply (discoverSpec_yaml_error_is_final Vary.host_yaml_broken
           Scenario.fn_delegate ∅ Scenario.user_envs
           (Error "functions.yaml is not valid") eq_refl).
Defined.

Lemma discoverSpec_without_ports_starts_nothing_witness :
  fst (run (discoverSpec Vary.host_no_ports Scenario.fn_delegate ∅
              Scenario.user_envs))
  = Throws (Error "No open ports available") /\
  fst (run (discoverSpec Vary.host_one_port Scenario.fn_delegate ∅
              Scenario.user_envs))
  = Throws (Error "No open ports available").
Proof.
  split.
  - apply (discoverSpec_without_ports_starts_nothing Vary.host_no_ports
             Scenario.fn_delegate ∅ Scenario.user_envs
             (Error "No open ports available") eq_refl).
    left. reflexivity.
  - apply (discoverSpec_without_ports_starts_nothing Vary.host_one_port
             Scenario.fn_delegate ∅ Scenario.user_envs
             (Error "No open ports available") eq_refl).
    right. exists 5000. split; reflexivity.
Defined.

Lemma discoverSpec_one_child_one_stop_witness :
  filter (fun ev => is_fetch ev = true)
    (trace (snd (run (discoverSpec Scenario.host_probe_fails
                        Scenario.fn_delegate ∅ Scenario.user_envs))))
  = [EvFetch "http://localhost:5001/quitquitquit"].
Proof.
  apply (discoverSpec_one_child_one_stop Scenario.host_probe_fails
           Scenario.fn_delegate ∅ Scenario.user_envs 5000 5001
           eq_refl eq_refl eq_refl).
  discriminate.
Defined.

Lemma discoverSpec_keeps_deployables_witness :
  exists found,
    (discovery_detectFromYaml Scenario.host_dynamic "/work/functions"
       "demo-project" "go113" = Returns (Some found) \/
     (discovery_detectFromYaml Scenario.host_dynamic "/work/functions"
        "demo-project" "go113" = Returns None /\
      discovery_detectFromPort Scenario.host_dynamic 8081 "demo-project"
        "go113" = Returns (Some found))) /\
    ["hello"] = deployables found.
Proof.
  apply (discoverSpec_keeps_deployables Scenario.host_dynamic
           Scenario.fn_delegate ∅ Scenario.user_envs
           {| deployables := ["hello"];
              environmentVariables := Scenario.user_envs |}).
  vm_compute. reflexivity.
Defined.

(** ** hosting/release.ts: releasing one deploy *)

Section ReleaseDeploy.

Variable api : Hosting.Api.
Variables hostingChannel message : option string.
Variable projectNumber : string.
Variable deploy : Hosting.Deploy.

Abbreviation version_ := (default "" (Hosting.deploy_version deploy)).
Abbreviation converted_ :=
  (Hosting.convertConfig api (Hosting.deploy_config deploy)).
Abbreviation release_ :=
  (Hosting.release_deploy api hostingChannel message projectNumber deploy).
Abbreviation post_path_ :=
  (Hosting.release_path projectNumber deploy hostingChannel).
Abbreviation posted_ :=
  (Hosting.client_post api post_path_ (Hosting.message_or_null message)
     version_).

Ltac release_unfold :=
  unfold Hosting.release_deploy, Hosting.then_, Hosting.await, Hosting.note,
    Hosting.pure, Hosting.fail.

(** X19: a deploy without a version is refused by the assertion, with
    exit code 2, before anything is logged, converted or requested for
    it. *)
Theorem release_deploy_asserts_version (t : list Hosting.Step) :
  truthy (Hosting.deploy_version deploy) = false ->
  release_ t
  = (Hosting.Failed
       (Hosting.Assertion
          "Assertion failed: Hosting version should have been set in the prepare phase"
          2),
     t).
Proof. intros Hv. release_unfold. rewrite Hv. reflexivity. Qed.

(** The requests of one run, by how far it got. *)
Lemma release_deploy_requests :
  filter (fun s => Hosting.is_request s = true) (snd (release_ []))
  = if truthy (Hosting.deploy_version deploy) then
      match converted_ with
      | Returns config =>
          Hosting.Patch ("/" +:+ version_) "FINALIZED" config "status,config"
          :: match Hosting.client_patch api ("/" +:+ version_) config with
             | Returns _ =>
                 [Hosting.Post post_path_ (Hosting.message_or_null message)
                    version_]
             | _ => []
             end
      | _ => []
      end
    else [].
Proof.
  release_unfold.
  destruct (truthy (Hosting.deploy_version deploy)); [|reflexivity].
  cbn [negb app]. destruct converted_ as [config|e|]; [|reflexivity|reflexivity].
  destruct (Hosting.client_patch api ("/" +:+ version_) config) as [body|e|];
    [|reflexivity|reflexivity].
  destruct (negb (String.eqb (Hosting.channelSegment hostingChannel) ""));
    destruct posted_; reflexivity.
Qed.

Lemma post_is_request (t : list Hosting.Step) (path : string)
    (m : option string) (vn : string) :
  In (Hosting.Post path m vn) t ->
  In (Hosting.Post path m vn)
    (filter (fun s => Hosting.is_request s = true) t).
Proof.
  intros H. apply list_elem_of_In, list_elem_of_filter.
  split; [reflexivity | apply list_elem_of_In, H].
Qed.

(** X20: when a release request was sent for the deploy, its config had
    been converted and its version finalized by a PATCH that returned; the
    requests of the run are that PATCH of the version, marked FINALIZED
    with the converted config, followed by the one POST, which names the
    version and carries the message or null. *)
Theorem release_deploy_posts_only_after_finalize
    (path : string) (m : option string) (vn : string) :
  In (Hosting.Post path m vn) (snd (release_ [])) ->
  exists config body,
    converted_ = Returns config /\
    Hosting.client_patch api ("/" +:+ version_) config = Returns body /\
    vn = version_ /\
    m = (if truthy message then message else None) /\
    filter (fun s => Hosting.is_request s = true) (snd (release_ []))
    = [Hosting.Patch ("/" +:+ version_) "FINALIZED" config "status,config";
       Hosting.Post path m vn].
Proof.
  intros Hin. apply post_is_request in Hin.
  rewrite release_deploy_requests in Hin |- *.
  destruct (truthy (Hosting.deploy_version deploy)); [|destruct Hin].
  destruct converted_ as [config|e|]; [|destruct Hin|destruct Hin].
  destruct (Hosting.client_patch api ("/" +:+ version_) config)
    as [body|e|] eqn:Hpatch; cbn [In] in Hin.
  - destruct Hin as [H|[H|[]]]; [discriminate|]. inversion H; subst.
    exists config, body. repeat split; try reflexivity. exact Hpatch.
  - destruct Hin as [H|[]]. discriminate.
  - destruct Hin as [H|[]]. discriminate.
Qed.

(** X21: the release request goes to the site's releases under the
    project when no channel is set or the channel is "live", and to the
    releases of the channel under the site otherwise. *)
Theorem release_deploy_target
    (path : string) (m : option string) (vn : string) :
  In (Hosting.Post path m vn) (snd (release_ [])) ->
  (truthy hostingChannel = false \/ hostingChannel = Some "live" ->
   path = "/projects/" +:+ projectNumber +:+ "/sites/" +:+
          Hosting.site deploy +:+ "/releases") /\
  (forall channel,
     hostingChannel = Some channel -> channel <> "" -> channel <> "live" ->
     path = "/projects/" +:+ projectNumber +:+ "/sites/" +:+
            Hosting.site deploy +:+ "/channels/" +:+ channel +:+ "/releases").
Proof.
  intros Hin. apply post_is_request in Hin.
  rewrite release_deploy_requests in Hin.
  assert (Hpath : path = post_path_).
  { destruct (truthy (Hosting.deploy_version deploy)); [|destruct Hin].
    destruct converted_ as [config|e|]; [|destruct Hin|destruct Hin].
    destruct (Hosting.client_patch api ("/" +:+ version_) config);
      cbn [In] in Hin;
      repeat (destruct Hin as [Hin|Hin]; try discriminate Hin);
      try contradiction.
    inversion Hin. reflexivity. }
  subst path. unfold Hosting.release_path, Hosting.channelSegment. split.
  - intros [Hch | ->]; [rewrite Hch|]; reflexivity.
  - intros channel Hch Hne Hlive. rewrite Hch.
    change (default "" (Some channel)) with channel. cbn [truthy].
    apply String.eqb_neq in Hne, Hlive.
    rewrite Hne, Hlive. reflexivity.
Qed.

(** X22: the release of a deploy completes exactly when the deploy has a
    version, its config converts, the PATCH returns and the POST
    returns. *)
Theorem release_deploy_done_iff (t : list Hosting.Step) :
  fst (release_ t) = Hosting.Done tt <->
  truthy (Hosting.deploy_version deploy) = true /\
  exists config body released,
    converted_ = Returns config /\
    Hosting.client_patch api ("/" +:+ version_) config = Returns body /\
    posted_ = Returns released.
Proof.
  release_unfold.
  destruct (truthy (Hosting.deploy_version deploy)); cbn [negb fst];
    [|split; [discriminate | intros [H _]; discriminate]].
  destruct converted_ as [config|e|]; cbn [fst];
    [|split; [discriminate | intros (_ & c & b & r & H & _); discriminate]
     |split; [discriminate | intros (_ & c & b & r & H & _); discriminate]].
  destruct (Hosting.client_patch api ("/" +:+ version_) config)
    as [body|e|] eqn:Hpatch; cbn [fst];
    [|split; [discriminate
             | intros (_ & c & b & r & Hc & Hp & _); inversion Hc; subst;
               congruence]
     |split; [discriminate
             | intros (_ & c & b & r & Hc & Hp & _); inversion Hc; subst;
               congruence]].
  destruct (negb (String.eqb (Hosting.channelSegment hostingChannel) ""));
    cbn [fst];
    (destruct posted_ as [released|e|] eqn:Hpost; cbn [fst];
     [split; [intros _; split; [reflexivity|];
              exists config, body, released; repeat split; assumption
             | reflexivity]
     |split; [discriminate
             | intros (_ & c & b & r & _ & _ & Hr); discriminate]
     |split; [discriminate
             | intros (_ & c & b & r & _ & _ & Hr); discriminate]]).
Qed.

End ReleaseDeploy.

Lemma release_deploy_asserts_version_witness :
  Hosting.release_deploy (Hosting.api_with (Returns "ok") (Returns "ok"))
    None None "1234" (Hosting.blog None) []
  = (Hosting.Failed
       (Hosting.Assertion
          "Assertion failed: Hosting version should have been set in the prepare phase"
          2),
     []).
Proof.
  apply (release_deploy_asserts_version
           (Hosting.api_with (Returns "ok") (Returns "ok")) None None "1234"
           (Hosting.blog None) [] eq_refl).
Defined.

Lemma release_deploy_posts_only_after_finalize_witness :
  filter (fun s => Hosting.is_request s = true)
    (snd (Hosting.release_deploy
            (Hosting.api_with (Returns "ok") (Throws (Error "403")))
            (Some "beta") (Some "first") "1234"
            (Hosting.blog (Some "sites/blog/versions/7")) []))
  = [Hosting.Patch "/sites/blog/versions/7" "FINALIZED" "converted {}"
       "status,config";
     Hosting.Post "/projects/1234/sites/blog/channels/beta/releases"
       (Some "first") "sites/blog/versions/7"].
Proof.
  destruct (release_deploy_posts_only_after_finalize
              (Hosting.api_with (Returns "ok") (Throws (Error "403")))
              (Some "beta") (Some "first") "1234"
              (Hosting.blog (Some "sites/blog/versions/7"))
              "/projects/1234/sites/blog/channels/beta/releases"
              (Some "first") "sites/blog/versions/7")
    as (config & body & Hc & _ & _ & _ & Hreq).
  - vm_compute. do 7 right. left. reflexivity.
  - inversion Hc. subst config. exact Hreq.
Defined.

Lemma release_deploy_target_witness :
  "/projects/1234/sites/blog/releases"
  = "/projects/" +:+ "1234" +:+ "/sites/" +:+ "blog" +:+ "/releases".
Proof.
  apply (proj1 (release_deploy_target
                  (Hosting.api_with (Returns "ok") (Returns "done"))
                  (Some "live") None "1234"
                  (Hosting.blog (Some "sites/blog/versions/7"))
                  "/projects/1234/sites/blog/releases" None
                  "sites/blog/versions/7"
                  ltac:(vm_compute; do 6 right; left; reflexivity))).
  right. reflexivity.
Defined.
